(** * Verification of the TikTok publish pipeline (upload.py, transcribe.py)

    The development embeds the two scripts shallowly:
    - Python values that cross the JSON boundary are a small inductive type
      [pyval] with Python's truthiness, [==] against a string and [dict.get]
      (JSON numbers are integers here);
    - a Python [str] is held as the bytes of its UTF-8 encoding and a file as
      its bytes: reading a file in text mode checks that the bytes are
      UTF-8 and translates the line endings, writing one in text mode needs
      a text that can be encoded, and [str.strip] removes the white space
      characters of Unicode;
    - the file system is a finite map from paths to the contents of regular,
      readable files;
    - the provider is an oracle ([network]) answering the three HTTP calls,
      each of which may also raise in the client;
    - a session is a computation in the monad [run]: it emits the network
      calls and sleeps it performs ([event]) and ends by returning a value,
      by raising, or by running out of fuel in the unbounded poll loop;
    - the worker pool is the list of finished sessions and the order in
      which [as_completed] hands them back;
    - the pseudo random generator is a stream of draws.
    Output written with [print] is modelled for the batch summary only. *)

From Stdlib Require Import ZArith Ascii String Permutation.
From stdpp Require Import gmap strings list pretty.

Local Open Scope Z_scope.
Set Warnings "-register-all".

(** ** Python values *)

Inductive pyval : Type :=
| PyNone
| PyBool (b : bool)
| PyInt (z : Z)
| PyStr (s : string)
| PyList (l : list pyval)
| PyDict (d : list (string * pyval)).

(** [bool(v)]: None, False, 0, the empty string and empty containers are
    falsy. *)
Definition truthy (v : pyval) : bool :=
  match v with
  | PyNone => false
  | PyBool b => b
  | PyInt z => negb (z =? 0)
  | PyStr s => negb (String.eqb s "")
  | PyList l => match l with [] => false | _ => true end
  | PyDict d => match d with [] => false | _ => true end
  end.

(** [v == s] for a string literal [s]. *)
Definition py_eq_str (v : pyval) (s : string) : bool :=
  match v with
  | PyStr t => String.eqb t s
  | _ => false
  end.

(** [v is None] *)
Definition is_none (v : pyval) : bool :=
  match v with PyNone => true | _ => false end.

(** Key lookup in a dict (the first binding of a key is the live one). *)
Fixpoint dict_find (k : string) (d : list (string * pyval)) : option pyval :=
  match d with
  | [] => None
  | (k', v) :: d' => if String.eqb k k' then Some v else dict_find k d'
  end.

(** Exceptions the scripts can meet. [RequestException] stands for every
    error raised by the HTTP client (connection errors, invalid URL). *)
Inductive exn : Type :=
| OSError
| AttributeError
| TypeError
| KeyError
| JSONDecodeError
| UnicodeDecodeError
| RequestException.

(** ** UTF-8 *)

Module Utf8.

Definition byte (n : N) : ascii := ascii_of_N n.

(** The bytes that encode a code point. *)
Definition encode_char (cp : N) : list ascii :=
  (if cp <? 0x80 then [byte cp]
   else if cp <? 0x800 then [byte (0xC0 + cp / 64); byte (0x80 + cp mod 64)]
   else if cp <? 0x10000 then
     [byte (0xE0 + cp / 4096); byte (0x80 + (cp / 64) mod 64);
      byte (0x80 + cp mod 64)]
   else
     [byte (0xF0 + cp / 262144); byte (0x80 + (cp / 4096) mod 64);
      byte (0x80 + (cp / 64) mod 64); byte (0x80 + cp mod 64)])%N.

Definition between (lo hi : N) (c : ascii) : bool :=
  ((lo <=? N_of_ascii c) && (N_of_ascii c <=? hi))%N.

Definition continuation (c : ascii) : bool := between 0x80 0xBF c.

(** The second byte of a sequence of three: no overlong form behind E0, no
    surrogate behind ED. *)
Definition second_of_three (b0 b1 : ascii) : bool :=
  if between 0xE0 0xE0 b0 then between 0xA0 0xBF b1
  else if between 0xED 0xED b0 then between 0x80 0x9F b1
  else continuation b1.

(** The second byte of a sequence of four: no overlong form behind F0,
    nothing above U+10FFFF behind F4. *)
Definition second_of_four (b0 b1 : ascii) : bool :=
  if between 0xF0 0xF0 b0 then between 0x90 0xBF b1
  else if between 0xF4 0xF4 b0 then between 0x80 0x8F b1
  else continuation b1.

(** The bytes are well-formed UTF-8: [bytes.decode('utf-8')] does not
    raise. *)
Fixpoint valid (s : string) : bool :=
  match s with
  | EmptyString => true
  | String b0 s1 =>
      if between 0x00 0x7F b0 then valid s1
      else
        match s1 with
        | EmptyString => false
        | String b1 s2 =>
            if between 0xC2 0xDF b0 then continuation b1 && valid s2
            else
              match s2 with
              | EmptyString => false
              | String b2 s3 =>
                  if between 0xE0 0xEF b0
                  then second_of_three b0 b1 && continuation b2 && valid s3
                  else
                    match s3 with
                    | EmptyString => false
                    | String b3 s4 =>
                        between 0xF0 0xF4 b0 && second_of_four b0 b1
                        && continuation b2 && continuation b3 && valid s4
                    end
              end
        end
  end.

End Utf8.

(** ** Strings: the parts of [str] and [os.path] the scripts use *)

Module Str.

(** [s[a:b]] for [0 <= a]. *)
Definition slice (s : string) (a b : Z) : string :=
  String.substring (Z.to_nat a) (Z.to_nat (b - a)) s.

Definition len (s : string) : Z := Z.of_nat (String.length s).

(** [s.rfind(c)]: the highest index holding [c], or -1. *)
Fixpoint rfind_from (c : ascii) (s : string) (i : Z) (last : Z) : Z :=
  match s with
  | EmptyString => last
  | String x s' =>
      rfind_from c s' (i + 1) (if Ascii.eqb x c then i else last)
  end.

Definition rfind (c : ascii) (s : string) : Z := rfind_from c s 0 (-1).

(** [s.startswith(p)] *)
Definition startswith (p s : string) : bool := String.prefix p s.

(** [sub in s] *)
Fixpoint contains (sub s : string) : bool :=
  String.prefix sub s ||
  match s with
  | EmptyString => false
  | String _ s' => contains sub s'
  end.

(** The white space characters of [str.isspace], by code point. *)
Definition whitespace : list N :=
  [ 0x9; 0xA; 0xB; 0xC; 0xD; 0x1C; 0x1D; 0x1E; 0x1F; 0x20; 0x85; 0xA0; 0x1680;
    0x2000; 0x2001; 0x2002; 0x2003; 0x2004; 0x2005; 0x2006; 0x2007; 0x2008;
    0x2009; 0x200A; 0x2028; 0x2029; 0x202F; 0x205F; 0x3000 ]%N.

(** ... and as the byte sequences that hold them in a text. *)
Definition whitespace_encodings : list (list ascii) :=
  map Utf8.encode_char whitespace.

(** [w] is the beginning of [l]. *)
Fixpoint starts_with (w l : list ascii) : bool :=
  match w, l with
  | [], _ => true
  | _ :: _, [] => false
  | x :: w', y :: l' => Ascii.eqb x y && starts_with w' l'
  end.

(** What is left of [l] behind the first of the sequences [ws] it begins
    with, if there is one. *)
Fixpoint after_any (ws : list (list ascii)) (l : list ascii)
  : option (list ascii) :=
  match ws with
  | [] => None
  | w :: ws' =>
      if starts_with w l then Some (drop (length w) l) else after_any ws' l
  end.

(** Removing the sequences [ws] from the beginning of [l], at most [n]
    times. *)
Fixpoint lstrip_by (ws : list (list ascii)) (n : nat) (l : list ascii)
  : list ascii :=
  match n with
  | O => l
  | S n' =>
      match after_any ws l with
      | Some rest => lstrip_by ws n' rest
      | None => l
      end
  end.

(** [s.lstrip()] and [s.rstrip()] on the bytes of a text: white space is
    removed from the beginning, and from the end by reading backwards. *)
Definition lstrip_bytes (l : list ascii) : list ascii :=
  lstrip_by whitespace_encodings (length l) l.

Definition rstrip_bytes (l : list ascii) : list ascii :=
  reverse (lstrip_by (reverse <$> whitespace_encodings) (length l) (reverse l)).

(** [s.strip()] *)
Definition strip (s : string) : string :=
  string_of_list_ascii (rstrip_bytes (lstrip_bytes (list_ascii_of_string s))).

Definition CR : ascii := ascii_of_nat 13.
Definition LF : ascii := ascii_of_nat 10.

(** The translation of line endings when a file is read in text mode:
    CR LF and a CR alone become LF. *)
Fixpoint universal_newlines (s : string) : string :=
  match s with
  | EmptyString => EmptyString
  | String c s' =>
      if Ascii.eqb c CR then
        String LF
          match s' with
          | String c' s'' =>
              if Ascii.eqb c' LF then universal_newlines s''
              else universal_newlines s'
          | EmptyString => EmptyString
          end
      else String c (universal_newlines s')
  end.

End Str.

Module OsPath.

(** The loop of [posixpath.splitext] that skips the leading dots of the
    file name: [n] is the number of iterations left,
    [dotIndex - filenameIndex]. *)
Fixpoint splitext_scan (p : string) (dotIndex filenameIndex : Z) (n : nat)
  : option (string * string) :=
  match n with
  | O => None
  | S n' =>
      if negb (String.eqb (Str.slice p filenameIndex (filenameIndex + 1)) ".")
      then Some (Str.slice p 0 dotIndex, Str.slice p dotIndex (Str.len p))
      else splitext_scan p dotIndex (filenameIndex + 1) n'
  end.

(** [os.path.splitext(p)] *)
Definition splitext (p : string) : string * string :=
  let sepIndex := Str.rfind "/" p in
  let dotIndex := Str.rfind "." p in
  if sepIndex <? dotIndex then
    match splitext_scan p dotIndex (sepIndex + 1)
            (Z.to_nat (dotIndex - (sepIndex + 1))) with
    | Some r => r
    | None => (p, "")
    end
  else (p, "").

(** [os.path.basename(p)] *)
Definition basename (p : string) : string :=
  Str.slice p (Str.rfind "/" p + 1) (Str.len p).

End OsPath.

(** ** Effects: network calls, sleeps, exceptions, and the poll loop *)

(** What a session does to the outside world, in order. *)
Inductive event : Type :=
| InitPost (access_token : string) (file_size : Z) (caption : string)
| UploadPut (upload_url : pyval) (file_data : string)
| StatusGet (access_token : string) (publish_id : pyval)
| Sleep (seconds : Z).

Inductive outcome (A : Type) : Type :=
| Returns (a : A)
| Raises (e : exn)
| Diverges.

Arguments Returns {A} a.
Arguments Raises {A} e.
Arguments Diverges {A}.

(** A computation: the events performed so far and how it ended.
    [Diverges] is a poll loop that has not ended within its fuel. *)
Definition run (A : Type) : Type := list event * outcome A.

#[global] Instance run_ret : MRet run := λ A a, ([], Returns a).

#[global] Instance run_bind : MBind run := λ A B f m,
  match m with
  | (t, Returns a) => let '(t', o) := f a in (t ++ t', o)
  | (t, Raises e) => (t, Raises e)
  | (t, Diverges) => (t, Diverges)
  end.

Definition emit (e : event) : run unit := ([e], Returns tt).
Definition raise {A : Type} (e : exn) : run A := ([], Raises e).

(** ** The outside world *)

(** An HTTP response as the scripts read it: the status code and the
    decoded body ([None] when the body is not JSON, so that
    [response.json()] raises). *)
Record response : Type := Response {
  status_code : Z;
  body : option pyval
}.

(** What an HTTP call does: answer, or raise in the client. *)
Inductive reply : Type :=
| Answers (r : response)
| Fails.

(** The provider, as seen from the three call sites of upload.py. The
    status endpoint is asked repeatedly: [n] is the number of earlier
    queries for the same publish identifier. *)
Record network : Type := Network {
  post_init : string → Z → string → reply;
  put_video : pyval → string → reply;
  get_status : string → pyval → nat → reply
}.

Definition request (r : reply) : run response :=
  match r with
  | Answers resp => mret resp
  | Fails => raise RequestException
  end.

(** [response.json()] *)
Definition json (r : response) : run pyval :=
  match body r with
  | Some j => mret j
  | None => raise JSONDecodeError
  end.

(** [v.get(k, dflt)]: only dicts have [get]. *)
Definition py_get (v : pyval) (k : string) (dflt : pyval) : run pyval :=
  match v with
  | PyDict d => mret (default dflt (dict_find k d))
  | _ => raise AttributeError
  end.

(** [k in v] for a string [k]: key test on a dict, element test on a list,
    substring test on a string; the other values are not containers. *)
Definition py_in (k : string) (v : pyval) : run bool :=
  match v with
  | PyDict d => mret (bool_decide (is_Some (dict_find k d)))
  | PyList l => mret (existsb (λ x, py_eq_str x k) l)
  | PyStr s => mret (Str.contains k s)
  | _ => raise TypeError
  end.

(** [v[k]] for a string [k]. *)
Definition py_getitem (v : pyval) (k : string) : run pyval :=
  match v with
  | PyDict d =>
      match dict_find k d with
      | Some x => mret x
      | None => raise KeyError
      end
  | _ => raise TypeError
  end.

(** [v.startswith(p)]: a method of strings only. *)
Definition py_startswith (v : pyval) (p : string) : run bool :=
  match v with
  | PyStr s => mret (Str.startswith p s)
  | _ => raise AttributeError
  end.

(** [p + v] for a string literal [p]. *)
Definition py_str_add (p : string) (v : pyval) : run pyval :=
  match v with
  | PyStr s => mret (PyStr (p +:+ s))
  | _ => raise TypeError
  end.

(** The file system: regular files by path. *)
Abbreviation filesystem := (gmap string string).

Module Os.

(** [os.path.getsize(p)] *)
Definition getsize (fs : filesystem) (p : string) : run Z :=
  match fs !! p with
  | Some content => mret (Str.len content)
  | None => raise OSError
  end.

(** [os.path.exists(p)] *)
Definition exists_ (fs : filesystem) (p : string) : bool :=
  bool_decide (is_Some (fs !! p)).

(** [open(p, "rb").read()] *)
Definition read (fs : filesystem) (p : string) : run string :=
  match fs !! p with
  | Some content => mret content
  | None => raise OSError
  end.

(** [open(p, "r", encoding="utf-8").read()]: the bytes are decoded, which
    raises when they are not UTF-8, and the line endings are translated. *)
Definition read_text (fs : filesystem) (p : string) : run string :=
  match fs !! p with
  | Some content =>
      if Utf8.valid content then mret (Str.universal_newlines content)
      else raise UnicodeDecodeError
  | None => raise OSError
  end.

End Os.

(** ** upload.py *)

Module Upload.

Definition TRANSCRIPT_EXTENSION : string := ".txt".

Section Session.

Variable fs : filesystem.
Variable net : network.

(** Direct Post: initialization step. The result is the pair the
    function returns: (publish_id, upload_url), ("RATE_LIMIT", None) or
    (None, None). *)
Definition initialize_video_post (file_size : Z) (access_token caption : string)
  : run (pyval * pyval) :=
  emit (InitPost access_token file_size caption);;
  response ← request (post_init net access_token file_size caption);
  if status_code response =? 200 then
    j ← json response;
    data ← py_get j "data" (PyDict []);
    has_error ← py_in "error" j;
    rate_limited ←
      (if has_error : bool then
         error ← py_getitem j "error";
         code ← py_get error "code" PyNone;
         mret (py_eq_str code "spam_risk_too_many_pending_share")
       else mret false);
    if rate_limited : bool then mret (PyStr "RATE_LIMIT", PyNone)
    else
      publish_id ← py_get data "publish_id" PyNone;
      upload_url ← py_get data "upload_url" PyNone;
      if truthy publish_id && truthy upload_url then
        has_scheme ← py_startswith upload_url "http";
        upload_url ← (if has_scheme : bool then mret upload_url
                      else py_str_add "https://" upload_url);
        mret (publish_id, upload_url)
      else mret (PyNone, PyNone)
  else mret (PyNone, PyNone).

(** Direct Post: the upload call. *)
Definition upload_video_file (upload_url : pyval) (video_path caption : string)
  : run bool :=
  file_size ← Os.getsize fs video_path;
  file_data ← Os.read fs video_path;
  emit (UploadPut upload_url file_data);;
  response ← request (put_video net upload_url file_data);
  if (status_code response =? 200) || (status_code response =? 201)
  then mret true
  else mret false.

(** The body of the [while True] loop of [poll_video_status]; [n] counts
    the queries already made and [fuel] bounds the iterations. *)
Fixpoint poll_loop (fuel : nat) (publish_id : pyval) (access_token : string)
    (n : nat) : run pyval :=
  match fuel with
  | O => ([], Diverges)
  | S fuel' =>
      emit (StatusGet access_token publish_id);;
      response ← request (get_status net access_token publish_id n);
      if status_code response =? 200 then
        j ← json response;
        data ← py_get j "data" (PyDict []);
        status ← py_get data "status" PyNone;
        if negb (py_eq_str status "PROCESSING_UPLOAD") then mret status
        else
          emit (Sleep 5);;
          poll_loop fuel' publish_id access_token (S n)
      else if status_code response =? 404 then mret (PyStr "COMPLETED")
      else
        emit (Sleep 5);;
        poll_loop fuel' publish_id access_token (S n)
  end.

Definition poll_video_status (fuel : nat) (publish_id : pyval)
    (access_token : string) : run pyval :=
  poll_loop fuel publish_id access_token 0.

(** [bool(t)] for a tuple of two elements: never empty. *)
Definition truthy_pair (t : pyval * pyval) : bool := true.

(** Direct Post flow of one video. The value returned is None,
    "RATE_LIMIT" or the publish identifier. *)
Definition direct_post_video (fuel : nat) (video_path access_token : string)
  : run pyval :=
  file_size ← Os.getsize fs video_path;
  let '(base, _) := OsPath.splitext video_path in
  let txt_file := base +:+ TRANSCRIPT_EXTENSION in
  if negb (Os.exists_ fs txt_file) then mret PyNone
  else
    content ← Os.read_text fs txt_file;
    let caption := Str.strip content in
    init_result ← initialize_video_post file_size access_token caption;
    if negb (truthy_pair init_result) || py_eq_str init_result.1 "RATE_LIMIT"
    then mret (PyStr "RATE_LIMIT")
    else
      let '(publish_id, upload_url) := init_result in
      uploaded ← upload_video_file upload_url video_path caption;
      if negb uploaded then mret PyNone
      else
        final_status ← poll_video_status fuel publish_id access_token;
        mret publish_id.

Definition get_tiktok_publish_id (fuel : nat) (video_path access_token : string)
  : run pyval :=
  direct_post_video fuel video_path access_token.

End Session.

End Upload.

(** ** upload.py: the batch driver and the summary *)

Module Batch.

(** A submitted session with the file it was submitted for, as the
    [future_to_file] dict holds them. *)
Definition future : Type := string * run pyval.

Definition diverges (ft : future) : bool :=
  match ft.2.2 with
  | Diverges => true
  | _ => false
  end.

(** The [for future in as_completed(...)] loop: [future.result()] returns
    the session's value or re-raises what the session raised. *)
Fixpoint collect (futures : list future) (results : list (string * pyval))
  : outcome (list (string * pyval)) :=
  match futures with
  | [] => Returns results
  | (f, session) :: rest =>
      match session.2 with
      | Returns result => collect rest (results ++ [(f, result)])
      | Raises e => Raises e
      | Diverges => Diverges
      end
  end.

Section Pool.

Variable fs : filesystem.
Variable net : network.
Variable fuel : nat.

(** The order in which [as_completed] hands the futures back. *)
Variable as_completed : list future → list future.

(** Lines 263-268 of [main]. Leaving the [with] block joins every
    worker, so a session that never ends keeps the driver from going
    on; otherwise the loop decides. *)
Definition run_pool (files : list string) (access_token : string)
  : outcome (list (string * pyval)) :=
  let future_to_file :=
    map (λ f, (f, Upload.direct_post_video fs net fuel f access_token)) files in
  if existsb diverges future_to_file then Diverges
  else collect (as_completed future_to_file) [].

End Pool.

(** The two list comprehensions of the summary. *)
Definition is_success (pub : pyval) : bool :=
  truthy pub && negb (py_eq_str pub "RATE_LIMIT").

Definition is_failure (pub : pyval) : bool :=
  is_none pub || py_eq_str pub "RATE_LIMIT".

Definition success (results : list (string * pyval)) : list string :=
  map (λ r, OsPath.basename r.1) (filter (λ r, is_success r.2 = true) results).

Definition failures (results : list (string * pyval)) : list (string * pyval) :=
  map (λ r, (OsPath.basename r.1, r.2)) (filter (λ r, is_failure r.2 = true) results).

(** [str(v)] as the f-strings of the summary need it; containers never
    reach the summary (see [failures_err]) and are abbreviated. *)
Definition py_str (v : pyval) : string :=
  match v with
  | PyNone => "None"
  | PyBool true => "True"
  | PyBool false => "False"
  | PyInt z => pretty z
  | PyStr s => s
  | PyList _ => "[...]"
  | PyDict _ => "{...}"
  end.

Definition newline : string := String (ascii_of_nat 10) EmptyString.

(** Lines 273-284 of [main]: one string per [print] call. *)
Definition summary (results : list (string * pyval)) : list string :=
  let success := success results in
  let failures := failures results in
  [newline +:+ "--- Upload Summary ---";
   "Total files processed: " +:+ pretty (length results);
   "Successfully uploaded: " +:+ pretty (length success)]
  ++ (match success with
      | [] => []
      | _ => "Files uploaded successfully:" :: map (λ name, " - " +:+ name) success
      end)
  ++ ["Failed uploads: " +:+ pretty (length failures)]
  ++ (match failures with
      | [] => []
      | _ => "Failed files:"
             :: map (λ '(name, err), " - " +:+ name +:+ ": " +:+ py_str err) failures
      end).

(** [main] from the pool on: what is printed, when the pool returns. *)
Definition main (fs : filesystem) (net : network) (fuel : nat)
    (as_completed : list future → list future)
    (files : list string) (access_token : string) : outcome (list string) :=
  match run_pool fs net fuel as_completed files access_token with
  | Returns results => Returns (summary results)
  | Raises e => Raises e
  | Diverges => Diverges
  end.

End Batch.

(** ** transcribe.py: saving the description *)

Module Transcribe.

Definition TRANSCRIPT_EXTENSION : string := ".txt".

(** [save_description]: [writable] tells whether [open(txt_path, "w")]
    succeeds. Opening empties the file; the write encodes the description,
    which raises when it has no UTF-8 encoding and then leaves the file
    empty; line endings are written as they are (the line separator is LF).
    A failure is caught and reported as None. The result is the file
    system after the call and the value returned. *)
Definition save_description (writable : string → bool) (fs : filesystem)
    (video_path description : string) : filesystem * option string :=
  let '(base, _) := OsPath.splitext video_path in
  let txt_path := base +:+ TRANSCRIPT_EXTENSION in
  if writable txt_path then
    if Utf8.valid description
    then (<[txt_path := description]> fs, Some txt_path)
    else (<[txt_path := EmptyString]> fs, None)
  else (fs, None).

End Transcribe.

(** ** hashlib.sha256 (FIPS 180-4), on 32-bit words held in [Z] *)

Module Sha256.

Definition wrap (x : Z) : Z := x mod 2 ^ 32.
Definition add32 (x y : Z) : Z := wrap (x + y).
Definition not32 (x : Z) : Z := Z.lxor x 0xffffffff.
Definition rotr (n x : Z) : Z :=
  Z.lor (Z.shiftr x n) (wrap (Z.shiftl x (32 - n))).

Definition ch (x y z : Z) : Z := Z.lxor (Z.land x y) (Z.land (not32 x) z).
Definition maj (x y z : Z) : Z :=
  Z.lxor (Z.lxor (Z.land x y) (Z.land x z)) (Z.land y z).
Definition bsig0 (x : Z) : Z := Z.lxor (Z.lxor (rotr 2 x) (rotr 13 x)) (rotr 22 x).
Definition bsig1 (x : Z) : Z := Z.lxor (Z.lxor (rotr 6 x) (rotr 11 x)) (rotr 25 x).
Definition ssig0 (x : Z) : Z := Z.lxor (Z.lxor (rotr 7 x) (rotr 18 x)) (Z.shiftr x 3).
Definition ssig1 (x : Z) : Z := Z.lxor (Z.lxor (rotr 17 x) (rotr 19 x)) (Z.shiftr x 10).

(** The first [count] primes, by trial division among the candidates from
    [n] on; [fuel] bounds the candidates tried. *)
Fixpoint primes_from (fuel count : nat) (n : Z) (found : list Z) : list Z :=
  match fuel, count with
  | O, _ | _, O => found
  | S fuel', S count' =>
      if forallb (λ p, negb (n mod p =? 0)) found
      then primes_from fuel' count' (n + 1) (found ++ [n])
      else primes_from fuel' count (n + 1) found
  end.

Definition primes (count : nat) : list Z := primes_from 400 count 2 [].

(** The integer cube root, one bit at a time from bit [bits - 1] down. *)
Fixpoint cube_root (bits : nat) (x root : Z) : Z :=
  match bits with
  | O => root
  | S bits' =>
      let candidate := root + 2 ^ Z.of_nat bits' in
      if candidate ^ 3 <=? x then cube_root bits' x candidate
      else cube_root bits' x root
  end.

(** The round constants: the first 32 bits of the fractional parts of the
    cube roots of the first 64 primes. *)
Definition K : list Z :=
  map (λ p, wrap (cube_root 40 (p * 2 ^ 96) 0)) (primes 64).

(** The initial hash value: the same of the square roots of the first 8
    primes. *)
Definition H0 : list Z :=
  map (λ p, wrap (Z.sqrt (p * 2 ^ 64))) (primes 8).

(** The [n] low bytes of [x], most significant first. *)
Fixpoint big_endian (n : nat) (x : Z) : list Z :=
  match n with
  | O => []
  | S n' => (Z.shiftr x (8 * Z.of_nat n')) mod 256 :: big_endian n' x
  end.

(** Padding: a 1 bit, zeros up to 56 mod 64 bytes, the bit length. *)
Definition pad (msg : list Z) : list Z :=
  let l := length msg in
  msg ++ [0x80] ++ replicate ((64 - (l + 9) mod 64) mod 64)%nat 0
      ++ big_endian 8 (8 * Z.of_nat l).

Fixpoint words (bytes : list Z) : list Z :=
  match bytes with
  | b0 :: b1 :: b2 :: b3 :: rest =>
      (b0 * 2 ^ 24 + b1 * 2 ^ 16 + b2 * 2 ^ 8 + b3) :: words rest
  | _ => []
  end.

(** Message schedule: [n] more words after the ones in [w]. *)
Fixpoint schedule (n : nat) (w : list Z) : list Z :=
  match n with
  | O => w
  | S n' =>
      let t := length w in
      let at_ (i : nat) := nth (t - i) w 0 in
      schedule n'
        (w ++ [add32 (add32 (ssig1 (at_ 2%nat)) (at_ 7%nat))
                     (add32 (ssig0 (at_ 15%nat)) (at_ 16%nat))])
  end.

Definition round (st : list Z) (kw : Z * Z) : list Z :=
  match st with
  | [a; b; c; d; e; f; g; h] =>
      let t1 := add32 (add32 (add32 h (bsig1 e)) (add32 (ch e f g) kw.1)) kw.2 in
      let t2 := add32 (bsig0 a) (maj a b c) in
      [add32 t1 t2; a; b; c; add32 d t1; e; f; g]
  | _ => st
  end.

Definition compress (h : list Z) (block : list Z) : list Z :=
  let w := schedule 48 (words block) in
  let st := foldl round h (zip K w) in
  zip_with add32 h st.

(** The 64-byte blocks of a padded message; [n] is their number. *)
Fixpoint blocks (n : nat) (bytes : list Z) : list (list Z) :=
  match n with
  | O => []
  | S n' => take 64 bytes :: blocks n' (drop 64 bytes)
  end.

Definition digest (msg : list Z) : list Z :=
  let padded := pad msg in
  foldl compress H0 (blocks (length padded / 64)%nat padded).

Definition hex_digit (x : Z) : ascii :=
  default "0"%char (String.get (Z.to_nat x) "0123456789abcdef").

Fixpoint hex (n : nat) (x : Z) : string :=
  match n with
  | O => EmptyString
  | S n' => String (hex_digit ((Z.shiftr x (4 * Z.of_nat n')) mod 16)) (hex n' x)
  end.

(** [s.encode('utf-8')] for a string held as its bytes. *)
Definition encode (s : string) : list Z :=
  map (λ c, Z.of_nat (nat_of_ascii c)) (list_ascii_of_string s).

(** [hashlib.sha256(b).hexdigest()] *)
Definition hexdigest (msg : list Z) : string :=
  foldr (λ w acc, hex 8 w +:+ acc) EmptyString (digest msg).

End Sha256.

(** ** upload.py: PKCE utility functions *)

Module Pkce.

Definition ascii_lowercase : string := "abcdefghijklmnopqrstuvwxyz".
Definition ascii_uppercase : string := "ABCDEFGHIJKLMNOPQRSTUVWXYZ".
Definition ascii_letters : string := ascii_lowercase +:+ ascii_uppercase.
Definition digits : string := "0123456789".

(** The generator [random] is a stream of draws read at a position.
    [random.choice(seq)] takes one draw and returns [seq[i]] for an index
    [i] below [len(seq)]. *)
Definition choice (seq : string) (draw : nat) : ascii :=
  default "000"%char (String.get (draw mod String.length seq)%nat seq).

(** [''.join(random.choice(allowed) for _ in range(count))] *)
Fixpoint join_choices (allowed : string) (draws : nat → nat) (pos count : nat)
  : string :=
  match count with
  | O => EmptyString
  | S count' =>
      String (choice allowed (draws pos)) (join_choices allowed draws (S pos) count')
  end.

(** The verifier and the position of the generator after the call. *)
Definition generate_code_verifier (draws : nat → nat) (pos : nat) (length : Z)
  : string * nat :=
  let allowed := ascii_letters +:+ digits +:+ "-._~" in
  (join_choices allowed draws pos (Z.to_nat length), (pos + Z.to_nat length)%nat).

Definition default_verifier_length : Z := 64.

Definition generate_code_challenge (code_verifier : string) : string :=
  Sha256.hexdigest (Sha256.encode code_verifier).

Definition generate_state (draws : nat → nat) (pos : nat) (length : Z)
  : string * nat :=
  let allowed := ascii_letters +:+ digits in
  (join_choices allowed draws pos (Z.to_nat length), (pos + Z.to_nat length)%nat).

(** The character class [A-Za-z0-9-._~]. *)
Definition unreserved (c : ascii) : bool :=
  let n := nat_of_ascii c in
  ((65 <=? n) && (n <=? 90) || (97 <=? n) && (n <=? 122)
   || (48 <=? n) && (n <=? 57)
   || (n =? 45) || (n =? 46) || (n =? 95) || (n =? 126))%nat.

End Pkce.

(** ** Vocabulary of the statements *)

(** The caption artifact of a video: the path with the extension replaced
    by the text extension (lines 209-210 of upload.py). *)
Definition caption_path (video_path : string) : string :=
  (OsPath.splitext video_path).1 +:+ Upload.TRANSCRIPT_EXTENSION.

Definition is_sleep (e : event) : bool :=
  match e with Sleep _ => true | _ => false end.

(** The provider's rate-limit error code. *)
Definition rate_limit_code : string := "spam_risk_too_many_pending_share".

(** A response whose JSON body carries the rate-limit error code. *)
Definition carries_rate_limit (resp : response) : Prop :=
  ∃ j e, body resp = Some (PyDict j)
         ∧ dict_find "error" j = Some (PyDict e)
         ∧ dict_find "code" e = Some (PyStr rate_limit_code).

(** A status reply that reports the processing status [s]. *)
Definition reports (r : reply) (s : string) : Prop :=
  ∃ j d, r = Answers (Response 200 (Some (PyDict j)))
         ∧ dict_find "data" j = Some (PyDict d)
         ∧ dict_find "status" d = Some (PyStr s).

(** A status reply after which the poll loop sleeps and asks again: the
    status is still "PROCESSING_UPLOAD", or the HTTP status is neither 200
    nor 404. *)
Definition pending (r : reply) : Prop :=
  reports r "PROCESSING_UPLOAD"
  ∨ ∃ resp, r = Answers resp ∧ status_code resp ≠ 200 ∧ status_code resp ≠ 404.

(** The events of [k] rounds of asking and waiting. *)
Fixpoint retries (k : nat) (access_token : string) (publish_id : pyval)
  : list event :=
  match k with
  | O => []
  | S k' => StatusGet access_token publish_id :: Sleep 5
            :: retries k' access_token publish_id
  end.

(** The value a finished session hands to the batch driver. *)
Definition value_of (session : run pyval) : pyval :=
  match session.2 with
  | Returns v => v
  | _ => PyNone
  end.

(** Computations that touch neither the network nor the clock. *)
Definition silent {A} (m : run A) : Prop := m.1 = [].

(** Postconditions: what holds of the value when a computation returns. *)
Definition post {A} (m : run A) (P : A → Prop) : Prop :=
  ∀ a, m.2 = Returns a → P a.

(** The Result Aggregator in the words of the specification: three
    classes, with the rate-limited class apart from the failures. *)
Module Spec.

Definition rate_limited (pub : pyval) : bool := py_eq_str pub "RATE_LIMIT".



Definition count (class : pyval → bool) (results : list (string * pyval)) : nat :=
  length (filter (λ r, class r.2 = true) results).


End Spec.

(** ** Example worlds *)

Module Examples.

(** Two videos; only a.mp4 has its caption file. *)
Definition fs_one_caption : filesystem :=
  {[ "/v/a.mp4" := "AAAA"; "/v/a.txt" := " cap a
"; "/v/b.mp4" := "BBBBBB" ]}.

(** Two videos with their caption files. *)
Definition fs_two_captions : filesystem :=
  <["/v/b.txt" := "cap b"]> fs_one_caption.

Definition json_response (code : Z) (j : list (string * pyval)) : reply :=
  Answers (Response code (Some (PyDict j))).

Definition init_ok (publish_id upload_url : string) : reply :=
  json_response 200
    [("data", PyDict [("publish_id", PyStr publish_id);
                      ("upload_url", PyStr upload_url)]);
     ("error", PyDict [("code", PyStr "ok")])].

Definition init_error (code : Z) (error_code : string) : reply :=
  json_response code [("error", PyDict [("code", PyStr error_code)])].

Definition status_is (s : string) : reply :=
  json_response 200 [("data", PyDict [("status", PyStr s)])].

(** The HTTP client refuses a URL that is not a string by raising. *)
Definition put_created (upload_url : pyval) (file_data : string) : reply :=
  match upload_url with
  | PyStr _ => Answers (Response 201 None)
  | _ => Fails
  end.

(** Processing twice, then the status [final]. *)
Definition processing_twice (final : string) (n : nat) : reply :=
  match n with
  | 0%nat | 1%nat => status_is "PROCESSING_UPLOAD"
  | _ => status_is final
  end.

(** Every upload goes through and is published at the third query. *)
Definition net_published : network :=
  Network (λ _ _ _, init_ok "p1" "up.example/x") put_created
          (λ _ _, processing_twice "PUBLISH_COMPLETE").

(** Every upload goes through and the provider reports a failure. *)
Definition net_failed : network :=
  Network (λ _ _ _, init_ok "p1" "https://up.example/x") put_created
          (λ _ _, processing_twice "FAILED").

(** Initialization answers HTTP 500 without a body. *)
Definition net_init_500 : network :=
  Network (λ _ _ _, Answers (Response 500 None)) put_created
          (λ _ _, processing_twice "PUBLISH_COMPLETE").

(** Initialization answers HTTP 200 with the rate-limit code. *)
Definition net_rate_limit_200 : network :=
  Network (λ _ _ _, init_error 200 rate_limit_code) put_created
          (λ _ _, processing_twice "PUBLISH_COMPLETE").

(** Initialization answers HTTP 403 with the rate-limit code. *)
Definition net_rate_limit_403 : network :=
  Network (λ _ _ _, init_error 403 rate_limit_code) put_created
          (λ _ _, processing_twice "PUBLISH_COMPLETE").


(** The connection breaks during the upload of the video of four bytes. *)
Definition net_a_upload_breaks : network :=
  Network (λ _ file_size _,
             if file_size =? 4 then init_ok "p1" "https://up.example/x"
             else init_ok "p2" "https://up.example/y")
          (λ upload_url file_data,
             if String.eqb file_data "AAAA" then Fails
             else put_created upload_url file_data)
          (λ _ _, processing_twice "PUBLISH_COMPLETE").

(** The status endpoint: a server error, then 404. *)
Definition net_404_second : network :=
  Network (λ _ _ _, init_ok "p1" "https://up.example/x") put_created
          (λ _ _ n, match n with
                    | 0%nat => Answers (Response 503 None)
                    | _ => Answers (Response 404 None)
                    end).

Definition draws_by_7 (n : nat) : nat := (7 * n)%nat.

End Examples.

(** What one reply does to the poll loop: end it with an outcome (Some),
    or make it sleep and ask again (None). *)
Definition poll_turn (r : reply) : option (outcome pyval) :=
  match r with
  | Fails => Some (Raises RequestException)
  | Answers resp =>
      if status_code resp =? 200 then
        match body resp with
        | None => Some (Raises JSONDecodeError)
        | Some (PyDict d) =>
            match default (PyDict []) (dict_find "data" d) with
            | PyDict d' =>
                let status := default PyNone (dict_find "status" d') in
                if py_eq_str status "PROCESSING_UPLOAD" then None
                else Some (Returns status)
            | _ => Some (Raises AttributeError)
            end
        | Some _ => Some (Raises AttributeError)
        end
      else if status_code resp =? 404 then Some (Returns (PyStr "COMPLETED"))
      else None
  end.

(** Character classes of the PKCE strings. *)
Module Charset.

(** [A-Za-z0-9] *)
Definition alphanumeric (c : ascii) : bool :=
  let n := nat_of_ascii c in
  ((65 <=? n) && (n <=? 90) || (97 <=? n) && (n <=? 122)
   || (48 <=? n) && (n <=? 57))%nat.

(** [0-9a-f] *)
Definition lower_hex (c : ascii) : bool :=
  let n := nat_of_ascii c in
  ((48 <=? n) && (n <=? 57) || (97 <=? n) && (n <=? 102))%nat.

End Charset.

(** ** upload.py: file discovery and the token exchange *)

Module Text.

(** [s.lower()] on the ASCII range. *)
Definition lower_char (c : ascii) : ascii :=
  let n := nat_of_ascii c in
  if ((65 <=? n) && (n <=? 90))%nat then ascii_of_nat (n + 32) else c.

Fixpoint lower (s : string) : string :=
  match s with
  | EmptyString => EmptyString
  | String c s' => String (lower_char c) (lower s')
  end.

(** [s.endswith(suffix)]: some tail of [s] is [suffix]. *)
Fixpoint endswith (suffix s : string) : bool :=
  String.eqb suffix s ||
  match s with
  | EmptyString => false
  | String _ s' => endswith suffix s'
  end.

(** [c not in s] for a character [c]. *)
Fixpoint lacks (c : ascii) (s : string) : bool :=
  match s with
  | EmptyString => true
  | String x s' => negb (Ascii.eqb x c) && lacks c s'
  end.

End Text.

Module Posix.

(** [os.path.join(a, b)] *)
Definition join (a b : string) : string :=
  if Str.startswith "/" b then b
  else if String.eqb a "" || Text.endswith "/" a then a +:+ b
  else a +:+ "/" +:+ b.

End Posix.

Module Front.

(** [get_files_from_dir]: [listdir] answers [os.listdir], or None when it
    raises. *)
Definition get_files_from_dir (listdir : string → option (list string))
    (directory : string) : outcome (list string) :=
  match listdir directory with
  | None => Raises OSError
  | Some names =>
      Returns
        (map (λ f, Posix.join directory f)
           (filter (λ f, Text.endswith ".mp4" (Text.lower f) = true) names))
  end.

(** [exchange_code_for_token]: [post_token] answers the POST to the token
    endpoint for a code and a verifier. *)
Definition exchange_code_for_token (post_token : string → string → reply)
    (code code_verifier : string) : run pyval :=
  response ← request (post_token code code_verifier);
  if status_code response =? 200 then
    data ← json response;
    access_token ← py_get data "access_token" PyNone;
    if truthy access_token then mret access_token
    else mret PyNone
  else mret PyNone.

End Front.

(** ** transcribe.py: the pipeline of one file *)

Module Pipeline.

(** The three remote services: the transcription endpoint (file name and
    file bytes), the chat endpoint (the prompt), and the Drive client (title
    and content; the identifier of the new file, or None when the client
    raises). *)
Record services : Type := Services {
  whisper : string → string → reply;
  chat : string → reply;
  drive : string → string → option string
}.

(** The local files and the files stored on the Drive, oldest first. *)
Record world : Type := World {
  files : filesystem;
  drive_files : list (string * string)
}.

(** [v[k]] for a string key, inside a [try]: None when it raises. *)
Definition subscript (v : pyval) (k : string) : option pyval :=
  match v with
  | PyDict d => dict_find k d
  | _ => None
  end.

(** [v[0]], inside a [try]: None when it raises. *)
Definition subscript_0 (v : pyval) : option pyval :=
  match v with
  | PyList (x :: _) => Some x
  | PyStr (String c _) => Some (PyStr (String c EmptyString))
  | _ => None
  end.

(** [v.strip()], inside a [try]: None when it raises. *)
Definition strip_method (v : pyval) : option string :=
  match v with
  | PyStr s => Some (Str.strip s)
  | _ => None
  end.

(** The result of a [try] block whose handler returns None. *)
Definition or_none (attempt : option pyval) : pyval := default PyNone attempt.

Section Services.

Variable svc : services.

(** [transcribe_video]: the whole body is inside the [try]. *)
Definition transcribe_video (fs : filesystem) (video_path : string) : pyval :=
  or_none
    (video ← fs !! video_path;
     match whisper svc (OsPath.basename video_path) video with
     | Fails => None
     | Answers response =>
         if negb (status_code response =? 200) then Some PyNone
         else
           j ← body response;
           match j with
           | PyDict d => Some (default (PyStr "") (dict_find "text" d))
           | _ => None
           end
     end).

Definition PROMPT : string :=
  "Generate a very short and sweet TikTok video description based on the following transcript. "
  +:+ "Include a bunch of creative hashtags at the end:"
  +:+ String (ascii_of_nat 10) (String (ascii_of_nat 10) EmptyString).

(** [generate_description]: the prompt is built before the [try], so a
    transcript that is not a string raises. The value returned is a string
    (Some) or None. *)
Definition generate_description (transcript : pyval) : outcome (option string) :=
  match transcript with
  | PyStr t =>
      let prompt := PROMPT +:+ t in
      Returns
        match chat svc prompt with
        | Fails => None
        | Answers response =>
            if negb (status_code response =? 200) then None
            else
              j ← body response;
              choices ← subscript j "choices";
              choice ← subscript_0 choices;
              message ← subscript choice "message";
              content ← subscript message "content";
              strip_method content
        end
  | _ => Raises TypeError
  end.

(** [upload_to_drive]: the whole body is inside the [try]. *)
Definition upload_to_drive (w : world) (file_path : string) : world * pyval :=
  match files w !! file_path with
  | None => (w, PyNone)
  | Some content =>
      match drive svc (OsPath.basename file_path) content with
      | Some file_id =>
          (World (files w)
             (drive_files w ++ [(OsPath.basename file_path, content)]),
           PyStr file_id)
      | None => (w, PyNone)
      end
  end.

(** [process_file]: the world after the call and the triple returned. *)
Definition process_file (writable : string → bool) (w : world)
    (video_path : string) : outcome (world * (string * bool * pyval)) :=
  let '(base, _) := OsPath.splitext video_path in
  let txt_path := base +:+ Transcribe.TRANSCRIPT_EXTENSION in
  if Os.exists_ (files w) txt_path
  then Returns (w, (video_path, true, PyStr "Already processed"))
  else
    let transcript := transcribe_video (files w) video_path in
    if is_none transcript
    then Returns (w, (video_path, false, PyStr "Transcription failed"))
    else
      match generate_description transcript with
      | Raises e => Raises e
      | Diverges => Diverges
      | Returns None =>
          Returns (w, (video_path, false, PyStr "Description generation failed"))
      | Returns (Some description) =>
          match Transcribe.save_description writable (files w) video_path
                  description with
          | (fs', None) =>
              Returns (World fs' (drive_files w),
                       (video_path, false, PyStr "Saving description failed"))
          | (fs', Some txt_path) =>
              let '(w', drive_file_id) :=
                upload_to_drive (World fs' (drive_files w)) txt_path in
              if is_none drive_file_id
              then Returns (w', (video_path, false, PyStr "Upload to Drive failed"))
              else Returns (w', (video_path, true, drive_file_id))
          end
      end.

End Services.

(** The filter of [main]: the files that have no caption file yet. *)
Definition files_to_process (fs : filesystem) (files : list string) : list string :=
  filter (λ f, Os.exists_ fs (caption_path f) = false) files.

End Pipeline.

Module Examples2.

(** Transcription and description go through; the Drive client raises. *)
Definition svc_drive_down : Pipeline.services :=
  Pipeline.Services
    (λ _ _, Examples.json_response 200 [("text", PyStr "hello there")])
    (λ _, Examples.json_response 200
            [("choices",
              PyList [PyDict [("message",
                               PyDict [("content", PyStr " A greeting #hi ")])]])])
    (λ _ _, None).

(** The same with a Drive that stores the file as "id-1". *)
Definition svc_ok : Pipeline.services :=
  Pipeline.Services (Pipeline.whisper svc_drive_down)
    (Pipeline.chat svc_drive_down) (λ _ _, Some "id-1").

Definition world_b : Pipeline.world :=
  Pipeline.World Examples.fs_one_caption [].

(** The same files after the description of b.mp4 was saved. *)
Definition fs_b_saved : filesystem :=
  <["/v/b.txt" := "A greeting #hi"]> Examples.fs_one_caption.

(** ... with nothing on the Drive yet, and with the caption stored there. *)
Definition world_b_saved : Pipeline.world := Pipeline.World fs_b_saved [].

Definition world_b_stored : Pipeline.world :=
  Pipeline.World fs_b_saved [("b.txt", "A greeting #hi")].

Definition listing (directory : string) : option (list string) :=
  if String.eqb directory "/v" then Some ["a.mp4"; "a.txt"; "B.MP4"; "notes.md"]
  else None.

Definition token_reply (token : pyval) : reply :=
  Examples.json_response 200 [("access_token", token)].

(** The caption of a.mp4 written in Latin-1: "caf" and the single byte E9,
    which is not UTF-8. *)
Definition latin1_caption : string :=
  "caf" +:+ String (Utf8.byte 0xE9) EmptyString.

Definition fs_latin1_caption : filesystem :=
  <["/v/a.txt" := latin1_caption]> Examples.fs_one_caption.

End Examples2.

(** * Theorems *)

(** ** The monad *)

Lemma bind_returns {A B} (t : list event) (a : A) (f : A → run B) :
  ((t, Returns a) ≫= f) = (t ++ (f a).1, (f a).2).
Proof. unfold mbind, run_bind. by destruct (f a). Qed.

Lemma bind_raises {A B} (t : list event) (e : exn) (f : A → run B) :
  ((t, Raises e) ≫= f) = ((t, Raises e) : run B).
Proof. reflexivity. Qed.

Lemma bind_diverges {A B} (t : list event) (f : A → run B) :
  ((t, Diverges) ≫= f) = ((t, Diverges) : run B).
Proof. reflexivity. Qed.

Lemma run_eta {A} (m : run A) : (m.1, m.2) = m.
Proof. by destruct m. Qed.

Lemma ret_bind {A B} (a : A) (f : A → run B) : (mret a ≫= f) = f a.
Proof. unfold mret, run_ret. rewrite bind_returns. apply run_eta. Qed.

Lemma emit_bind {B} (e : event) (f : unit → run B) :
  (emit e ≫= f) = (e :: (f tt).1, (f tt).2).
Proof. unfold emit. by rewrite bind_returns. Qed.

(** ** Paths *)

Example splitext_mp4 : OsPath.splitext "/v/clip.one.mp4" = ("/v/clip.one", ".mp4").
Proof. reflexivity. Qed.

Example splitext_hidden : OsPath.splitext "/v/.hidden" = ("/v/.hidden", "").
Proof. reflexivity. Qed.

Example splitext_dotdir : OsPath.splitext "/v.d/clip" = ("/v.d/clip", "").
Proof. reflexivity. Qed.

Example basename_mp4 : OsPath.basename "/v/clip.mp4" = "clip.mp4".
Proof. reflexivity. Qed.

Example strip_caption : Str.strip "  hello world
 " = "hello world".
Proof. reflexivity. Qed.

Example caption_path_a : caption_path "/v/a.mp4" = "/v/a.txt".
Proof. reflexivity. Qed.

(** ** The Publish Session *)

(** The session up to the initialization call, for a video and a caption
    that exist. *)
Lemma direct_post_video_init (fs : filesystem) net fuel video_path tok
    video content :
  fs !! video_path = Some video →
  Os.read_text fs (caption_path video_path) = mret content →
  Upload.direct_post_video fs net fuel video_path tok
  = (init_result ←
       Upload.initialize_video_post net (Str.len video) tok (Str.strip content);
     if negb (Upload.truthy_pair init_result)
        || py_eq_str init_result.1 "RATE_LIMIT"
     then mret (PyStr "RATE_LIMIT")
     else
       uploaded ← Upload.upload_video_file fs net init_result.2 video_path
                    (Str.strip content);
       if negb uploaded then mret PyNone
       else Upload.poll_video_status net fuel init_result.1 tok;;
            mret init_result.1).
Proof.
  intros Hvid Hcap. unfold Upload.direct_post_video, caption_path in *.
  destruct (OsPath.splitext video_path) as [base ext]. cbn [fst] in Hcap.
  unfold Os.getsize, Os.exists_. rewrite Hvid, Hcap, !ret_bind.
  rewrite bool_decide_true; [cbn [negb]|].
  2:{ unfold Os.read_text in Hcap.
      destruct (fs !! (base +:+ Upload.TRANSCRIPT_EXTENSION)); [eauto|discriminate]. }
  destruct (Upload.initialize_video_post net _ tok _) as [ti [[pid url]|e|]];
    reflexivity.
Qed.

(** *** Computations without events *)

Lemma silent_ret {A} (a : A) : silent (mret a).
Proof. reflexivity. Qed.

Lemma silent_raise {A} (e : exn) : silent (raise e : run A).
Proof. reflexivity. Qed.

Lemma silent_bind {A B} (m : run A) (f : A → run B) :
  silent m → (∀ a, silent (f a)) → silent (m ≫= f).
Proof.
  destruct m as [t [a|e|]]; unfold silent; cbn [fst]; intros -> Hf; try done.
  rewrite bind_returns. apply Hf.
Qed.

Create HintDb silent.

Ltac silent :=
  repeat first
    [ apply silent_ret
    | apply silent_raise
    | apply silent_bind; [ | intros ? ]
    | match goal with
      | |- silent (if ?b then _ else _) => destruct b
      | |- silent (match ?x with _ => _ end) => destruct x
      | |- silent (let '(_, _) := ?x in _) => destruct x
      end
    | progress auto with silent ].

Lemma silent_request r : silent (request r).
Proof. unfold request. silent. Qed.

Lemma silent_json r : silent (json r).
Proof. unfold json. silent. Qed.

Lemma silent_py_get v k d : silent (py_get v k d).
Proof. unfold py_get. silent. Qed.

Lemma silent_py_in k v : silent (py_in k v).
Proof. unfold py_in. silent. Qed.

Lemma silent_py_getitem v k : silent (py_getitem v k).
Proof. unfold py_getitem. silent. Qed.

Lemma silent_py_startswith v p : silent (py_startswith v p).
Proof. unfold py_startswith. silent. Qed.

Lemma silent_py_str_add p v : silent (py_str_add p v).
Proof. unfold py_str_add. silent. Qed.

#[local] Hint Resolve silent_request silent_json silent_py_get silent_py_in
  silent_py_getitem silent_py_startswith silent_py_str_add : silent.

(** Initialization performs exactly one network call. *)
Lemma initialize_video_post_trace net size tok caption :
  (Upload.initialize_video_post net size tok caption).1
  = [InitPost tok size caption].
Proof.
  unfold Upload.initialize_video_post. rewrite emit_bind. cbn [fst]. f_equal.
  match goal with |- ?m.1 = [] => change (silent m) end.
  silent; auto with silent.
Qed.

Lemma initialize_video_post_not_200 net size tok caption resp :
  post_init net tok size caption = Answers resp →
  status_code resp ≠ 200 →
  Upload.initialize_video_post net size tok caption
  = ([InitPost tok size caption], Returns (PyNone, PyNone)).
Proof.
  intros Hpost Hcode. unfold Upload.initialize_video_post.
  rewrite Hpost, emit_bind. cbn [request]. rewrite ret_bind.
  apply Z.eqb_neq in Hcode. rewrite Hcode. reflexivity.
Qed.

Lemma initialize_video_post_rate_limit net size tok caption resp :
  post_init net tok size caption = Answers resp →
  status_code resp = 200 →
  carries_rate_limit resp →
  Upload.initialize_video_post net size tok caption
  = ([InitPost tok size caption], Returns (PyStr "RATE_LIMIT", PyNone)).
Proof.
  intros Hpost Hcode (j & e & Hbody & Herr & Hrl).
  unfold Upload.initialize_video_post.
  rewrite Hpost, emit_bind. cbn [request]. rewrite ret_bind, Hcode.
  unfold json. rewrite Hbody, Z.eqb_refl, ret_bind.
  cbn. rewrite Herr. cbn. rewrite Hrl. reflexivity.
Qed.

(** *** Postconditions *)

Lemma post_ret {A} (a : A) (P : A → Prop) : P a → post (mret a) P.
Proof. intros HP b [= <-]. exact HP. Qed.

Lemma post_raise {A} (e : exn) (P : A → Prop) : post (raise e) P.
Proof. intros b [=]. Qed.

Lemma post_all {A} (m : run A) (P : A → Prop) : (∀ a, P a) → post m P.
Proof. intros HP a _. apply HP. Qed.

Lemma post_bind {A B} (m : run A) (f : A → run B) (P : A → Prop) (Q : B → Prop) :
  post m P → (∀ a, P a → post (f a) Q) → post (m ≫= f) Q.
Proof.
  destruct m as [t [a|e|]]; intros Hm Hf b; [|discriminate..].
  rewrite bind_returns. apply Hf, Hm. reflexivity.
Qed.

Lemma post_bind_any {A B} (m : run A) (f : A → run B) (Q : B → Prop) :
  (∀ a, post (f a) Q) → post (m ≫= f) Q.
Proof. intros Hf. apply (post_bind m f (λ _, True)); [by apply post_all|auto]. Qed.

Ltac post_step :=
  first
    [ apply post_raise
    | apply post_bind_any; intros ?
    | match goal with
      | |- post (if ?b then _ else _) _ => destruct b eqn:?
      end ].

(** The first component of a returned pair is None or truthy: it is None,
    "RATE_LIMIT" or a publish identifier that passed the truth test. *)
Lemma initialize_video_post_value net size tok caption :
  post (Upload.initialize_video_post net size tok caption)
       (λ r, r.1 = PyNone ∨ truthy r.1 = true).
Proof.
  unfold Upload.initialize_video_post.
  repeat post_step; apply post_ret; cbn; auto.
  match goal with
  | H : truthy _ && truthy _ = true |- _ => apply andb_prop in H as [-> _]
  end.
  by right.
Qed.

(** The upload call of a video that exists: one PUT, and the result is
    decided by the reply. *)
Lemma upload_video_file_put (fs : filesystem) net upload_url video_path caption video :
  fs !! video_path = Some video →
  Upload.upload_video_file fs net upload_url video_path caption
  = ([UploadPut upload_url video],
     match put_video net upload_url video with
     | Answers resp =>
         Returns ((status_code resp =? 200) || (status_code resp =? 201))
     | Fails => Raises RequestException
     end).
Proof.
  intros Hvid. unfold Upload.upload_video_file, Os.getsize, Os.read.
  rewrite Hvid, !ret_bind, emit_bind.
  destruct (put_video net upload_url video) as [resp|]; cbn; [|done].
  by destruct (_ || _).
Qed.

(** A failed initialization does not stop the session: the pair
    (None, None) is truthy and its first component is not "RATE_LIMIT", so
    the upload call is made with None as its URL. *)
Lemma direct_post_video_bad_init (fs : filesystem) net fuel video_path tok
    video content t :
  fs !! video_path = Some video →
  Os.read_text fs (caption_path video_path) = mret content →
  Upload.initialize_video_post net (Str.len video) tok (Str.strip content)
  = (t, Returns (PyNone, PyNone)) →
  ∃ rest o,
    Upload.direct_post_video fs net fuel video_path tok
    = (t ++ UploadPut PyNone video :: rest, o).
Proof.
  intros Hvid Hcap Hinit.
  rewrite (direct_post_video_init _ _ _ _ _ _ _ Hvid Hcap), Hinit, bind_returns.
  cbn [negb orb Upload.truthy_pair py_eq_str fst snd].
  rewrite (upload_video_file_put _ _ _ _ _ _ Hvid).
  destruct (put_video net PyNone video) as [resp|].
  - rewrite bind_returns. cbn [fst snd app]. eauto.
  - rewrite bind_raises. cbn [fst snd app]. eauto.
Qed.

(** [C5] A video whose caption file does not exist: the session performs no
    network call (in fact nothing observable at all), and for a video file
    that exists it returns None, the value of a failed upload. *)
Theorem missing_caption_fails_without_network (fs : filesystem) net fuel
    video_path tok :
  fs !! caption_path video_path = None →
  (Upload.direct_post_video fs net fuel video_path tok).1 = []
  ∧ (∀ video, fs !! video_path = Some video →
       Upload.direct_post_video fs net fuel video_path tok = ([], Returns PyNone)).
Proof.
  intros Hcap. unfold Upload.direct_post_video, caption_path in *.
  destruct (OsPath.splitext video_path) as [base ext]. simpl in Hcap.
  unfold Os.getsize, Os.exists_. rewrite Hcap.
  split; [|intros video Hvid; rewrite Hvid]; [destruct (fs !! video_path)|];
    reflexivity.
Qed.

Lemma missing_caption_fails_without_network_witness :
  (Upload.direct_post_video Examples.fs_one_caption Examples.net_published 10
     "/v/b.mp4" "tok").1 = []
  ∧ Upload.direct_post_video Examples.fs_one_caption Examples.net_published 10
      "/v/b.mp4" "tok" = ([], Returns PyNone).
Proof.
  destruct (missing_caption_fails_without_network Examples.fs_one_caption
              Examples.net_published 10 "/v/b.mp4" "tok") as [Htrace Hvalue].
  - vm_compute. reflexivity.
  - split; [exact Htrace|]. apply (Hvalue "BBBBBB"). vm_compute. reflexivity.
Defined.

(** [X23] An initialization answered with HTTP 200 and the rate-limit code
    in the error object of the body: the session returns "RATE_LIMIT" after
    that single call, with no upload and no status query. The caption sent
    is the decoded and stripped text of the caption file. *)
Theorem rate_limit_on_200_stops_session (fs : filesystem) net fuel video_path tok
    video content resp :
  fs !! video_path = Some video →
  Os.read_text fs (caption_path video_path) = mret content →
  post_init net tok (Str.len video) (Str.strip content) = Answers resp →
  status_code resp = 200 →
  carries_rate_limit resp →
  Upload.direct_post_video fs net fuel video_path tok
  = ([InitPost tok (Str.len video) (Str.strip content)],
     Returns (PyStr "RATE_LIMIT")).
Proof.
  intros Hvid Hcap Hpost Hcode Hrl.
  rewrite (direct_post_video_init _ _ _ _ _ _ _ Hvid Hcap).
  rewrite (initialize_video_post_rate_limit _ _ _ _ _ Hpost Hcode Hrl).
  reflexivity.
Qed.

Lemma rate_limit_on_200_stops_session_witness :
  Upload.direct_post_video Examples.fs_one_caption Examples.net_rate_limit_200 10
    "/v/a.mp4" "tok"
  = ([InitPost "tok" 4 "cap a"], Returns (PyStr "RATE_LIMIT")).
Proof.
  apply (rate_limit_on_200_stops_session Examples.fs_one_caption
           Examples.net_rate_limit_200 10 "/v/a.mp4" "tok" "AAAA" " cap a
"
           (Response 200 (Some (PyDict
              [("error", PyDict [("code", PyStr rate_limit_code)])])))).
  - vm_compute. reflexivity.
  - vm_compute. reflexivity.
  - reflexivity.
  - reflexivity.
  - exists [("error", PyDict [("code", PyStr rate_limit_code)])],
      [("code", PyStr rate_limit_code)].
    repeat split; reflexivity.
Defined.

(** [C6, failing input] The rate-limit code delivered with HTTP 403. The
    code is looked for only in answers with status 200, so the
    initialization returns (None, None); the guard of [direct_post_video]
    tests the pair, which is truthy, instead of its first component, so the
    session does not return "RATE_LIMIT": it goes on to the upload call with
    None as the URL, which the HTTP client refuses by raising. *)
Theorem rate_limit_on_403_not_recognized :
  carries_rate_limit
    (Response 403 (Some (PyDict [("error", PyDict [("code", PyStr rate_limit_code)])])))
  ∧ post_init Examples.net_rate_limit_403 "tok" 4 "cap a"
    = Answers (Response 403
        (Some (PyDict [("error", PyDict [("code", PyStr rate_limit_code)])])))
  ∧ Upload.initialize_video_post Examples.net_rate_limit_403 4 "tok" "cap a"
    = ([InitPost "tok" 4 "cap a"], Returns (PyNone, PyNone))
  ∧ Upload.truthy_pair (PyNone, PyNone) = true
  ∧ Upload.direct_post_video Examples.fs_one_caption Examples.net_rate_limit_403 10
      "/v/a.mp4" "tok"
    = ([InitPost "tok" 4 "cap a"; UploadPut PyNone "AAAA"], Raises RequestException)
  ∧ ¬ (Upload.direct_post_video Examples.fs_one_caption Examples.net_rate_limit_403
         10 "/v/a.mp4" "tok"
       = ([InitPost "tok" 4 "cap a"], Returns (PyStr "RATE_LIMIT"))).
Proof.
  split; [|split; [reflexivity|repeat split; try (vm_compute; reflexivity)]].
  - eexists _, _. repeat split; reflexivity.
  - vm_compute. discriminate.
Qed.

(** [C1, failing input] An initialization answered with HTTP 500: no
    rate-limit code, no publish identifier, no upload URL. The session does
    not stop with None: it makes the upload call with None as the URL, which
    the HTTP client refuses by raising. *)
Theorem bad_init_response_reaches_transfer :
  Upload.initialize_video_post Examples.net_init_500 4 "tok" "cap a"
  = ([InitPost "tok" 4 "cap a"], Returns (PyNone, PyNone))
  ∧ Upload.direct_post_video Examples.fs_one_caption Examples.net_init_500 10
      "/v/a.mp4" "tok"
    = ([InitPost "tok" 4 "cap a"; UploadPut PyNone "AAAA"], Raises RequestException).
Proof. split; vm_compute; reflexivity. Qed.


(** ** The poll loop *)

Lemma py_get_dict d k dflt :
  py_get (PyDict d) k dflt = mret (default dflt (dict_find k d)).
Proof. reflexivity. Qed.

Lemma py_get_found d k dflt v :
  dict_find k d = Some v → py_get (PyDict d) k dflt = mret v.
Proof. intros H. unfold py_get. by rewrite H. Qed.

Lemma poll_loop_pending net fuel pid tok n :
  pending (get_status net tok pid n) →
  Upload.poll_loop net (S fuel) pid tok n
  = (StatusGet tok pid :: Sleep 5 :: (Upload.poll_loop net fuel pid tok (S n)).1,
     (Upload.poll_loop net fuel pid tok (S n)).2).
Proof.
  intros [(j & d & Hr & Hd & Hs)|(resp & Hr & H200 & H404)];
    cbn [Upload.poll_loop]; rewrite Hr, emit_bind; cbn [request];
    rewrite ret_bind; cbn [status_code].
  - rewrite Z.eqb_refl. unfold json. cbn [body].
    rewrite ret_bind, (py_get_found _ _ _ _ Hd), ret_bind.
    rewrite (py_get_found _ _ _ _ Hs), ret_bind.
    cbn [py_eq_str]. rewrite String.eqb_refl. cbn [negb].
    by rewrite emit_bind.
  - apply Z.eqb_neq in H200, H404. by rewrite H200, H404, emit_bind.
Qed.

Lemma poll_loop_404 net fuel pid tok n resp :
  get_status net tok pid n = Answers resp →
  status_code resp = 404 →
  Upload.poll_loop net (S fuel) pid tok n
  = ([StatusGet tok pid], Returns (PyStr "COMPLETED")).
Proof.
  intros Hr Hcode. cbn [Upload.poll_loop].
  rewrite Hr, emit_bind. cbn [request]. rewrite ret_bind, Hcode. reflexivity.
Qed.

Lemma poll_loop_terminal net fuel pid tok n s :
  reports (get_status net tok pid n) s →
  s ≠ "PROCESSING_UPLOAD" →
  Upload.poll_loop net (S fuel) pid tok n
  = ([StatusGet tok pid], Returns (PyStr s)).
Proof.
  intros (j & d & Hr & Hd & Hs) Hne. cbn [Upload.poll_loop].
  rewrite Hr, emit_bind. cbn [request]. rewrite ret_bind. cbn [status_code].
  rewrite Z.eqb_refl. unfold json. cbn [body].
  rewrite ret_bind, (py_get_found _ _ _ _ Hd), ret_bind.
  rewrite (py_get_found _ _ _ _ Hs), ret_bind.
  apply String.eqb_neq in Hne. cbn [py_eq_str]. rewrite Hne. reflexivity.
Qed.

(** After [k] pending replies the loop is where it would be had it started
    at query [n + k], with [k] rounds of asking and waiting behind it. *)
Lemma poll_loop_retries net pid tok k : ∀ fuel n,
  (∀ i, (i < k)%nat → pending (get_status net tok pid (n + i))) →
  Upload.poll_loop net (k + fuel) pid tok n
  = (retries k tok pid ++ (Upload.poll_loop net fuel pid tok (n + k)).1,
     (Upload.poll_loop net fuel pid tok (n + k)).2).
Proof.
  induction k as [|k IH]; intros fuel n Hpending.
  - rewrite Nat.add_0_r. symmetry. apply run_eta.
  - cbn [Nat.add retries app]. rewrite poll_loop_pending.
    + rewrite IH.
      * cbn [fst snd]. by replace (S n + k)%nat with (n + S k)%nat by lia.
      * intros i Hi. replace (S n + i)%nat with (n + S i)%nat by lia.
        apply Hpending. lia.
    + specialize (Hpending 0%nat). rewrite Nat.add_0_r in Hpending.
      apply Hpending. lia.
Qed.

(** [C7] In the polling state, after any number [k] of pending replies, a
    reply with HTTP 404 ends the poll step at once with "COMPLETED": the
    events are the [k] rounds of asking and waiting that came before and the
    one query answered 404, with no query and no wait after it. Any fuel
    above [k] suffices. *)
Theorem poll_404_completes_immediately net pid tok k fuel resp :
  (∀ i, (i < k)%nat → pending (get_status net tok pid i)) →
  get_status net tok pid k = Answers resp →
  status_code resp = 404 →
  (k < fuel)%nat →
  Upload.poll_video_status net fuel pid tok
  = (retries k tok pid ++ [StatusGet tok pid], Returns (PyStr "COMPLETED")).
Proof.
  intros Hpending Hr Hcode Hfuel. unfold Upload.poll_video_status.
  replace fuel with (k + S (fuel - S k))%nat by lia.
  rewrite poll_loop_retries by exact Hpending.
  by rewrite (poll_loop_404 _ _ _ _ _ _ Hr Hcode).
Qed.

Lemma poll_404_completes_immediately_witness :
  Upload.poll_video_status Examples.net_404_second 2 (PyStr "p1") "tok"
  = ([StatusGet "tok" (PyStr "p1"); Sleep 5; StatusGet "tok" (PyStr "p1")],
     Returns (PyStr "COMPLETED")).
Proof.
  apply (poll_404_completes_immediately Examples.net_404_second (PyStr "p1") "tok"
           1 2 (Response 404 None)).
  - intros i Hi. assert (i = 0%nat) as -> by lia.
    right. exists (Response 503 None). repeat split; cbn; lia.
  - reflexivity.
  - reflexivity.
  - lia.
Defined.

(** The 404 shortcut on the very first query. *)
Example poll_404_first net pid tok fuel resp :
  get_status net tok pid 0 = Answers resp →
  status_code resp = 404 →
  Upload.poll_video_status net (S fuel) pid tok
  = ([StatusGet tok pid], Returns (PyStr "COMPLETED")).
Proof. apply poll_loop_404. Qed.

(** [C8] Status replies processing, processing, "published": the poll step
    returns "published" after exactly two waits of 5 seconds, one after each
    processing reply and none after the last. Three iterations of fuel
    suffice. *)
Theorem poll_processing_twice_then_published net pid tok fuel :
  reports (get_status net tok pid 0) "PROCESSING_UPLOAD" →
  reports (get_status net tok pid 1) "PROCESSING_UPLOAD" →
  reports (get_status net tok pid 2) "published" →
  (3 ≤ fuel)%nat →
  Upload.poll_video_status net fuel pid tok
  = ([StatusGet tok pid; Sleep 5; StatusGet tok pid; Sleep 5; StatusGet tok pid],
     Returns (PyStr "published"))
  ∧ length (filter (λ e, is_sleep e = true)
              (Upload.poll_video_status net fuel pid tok).1) = 2%nat.
Proof.
  intros H0 H1 H2 Hfuel. unfold Upload.poll_video_status.
  replace fuel with (2 + S (fuel - 3))%nat by lia.
  rewrite (poll_loop_retries _ _ _ 2).
  - rewrite (poll_loop_terminal _ _ _ _ _ "published") by done. done.
  - intros i Hi. left. destruct i as [|[|i]]; [done|done|lia].
Qed.

Lemma poll_processing_twice_then_published_witness :
  Upload.poll_video_status
    (Network (λ _ _ _, Fails) (λ _ _, Fails)
             (λ _ _, Examples.processing_twice "published"))
    3 (PyStr "p1") "tok"
  = ([StatusGet "tok" (PyStr "p1"); Sleep 5; StatusGet "tok" (PyStr "p1"); Sleep 5;
      StatusGet "tok" (PyStr "p1")],
     Returns (PyStr "published")).
Proof.
  refine (proj1 (poll_processing_twice_then_published
    (Network (λ _ _ _, Fails) (λ _ _, Fails)
             (λ _ _, Examples.processing_twice "published"))
    (PyStr "p1") "tok" 3 _ _ _ _)).
  - eexists _, _. repeat split; reflexivity.
  - eexists _, _. repeat split; reflexivity.
  - eexists _, _. repeat split; reflexivity.
  - lia.
Defined.

(** ** The session after the transfer *)

(** A session whose initialization returned a pair other than
    ("RATE_LIMIT", _) and whose upload was answered 200 or 201 polls, and
    what it returns is the publish identifier. *)
Lemma direct_post_video_transferred (fs : filesystem) net fuel video_path tok
    video content t pid url resp :
  fs !! video_path = Some video →
  Os.read_text fs (caption_path video_path) = mret content →
  Upload.initialize_video_post net (Str.len video) tok (Str.strip content)
  = (t, Returns (pid, url)) →
  py_eq_str pid "RATE_LIMIT" = false →
  put_video net url video = Answers resp →
  status_code resp = 200 ∨ status_code resp = 201 →
  Upload.direct_post_video fs net fuel video_path tok
  = (t ++ UploadPut url video :: (Upload.poll_video_status net fuel pid tok).1,
     match (Upload.poll_video_status net fuel pid tok).2 with
     | Returns _ => Returns pid
     | Raises e => Raises e
     | Diverges => Diverges
     end).
Proof.
  intros Hvid Hcap Hinit Hrl Hput Hcode.
  rewrite (direct_post_video_init _ _ _ _ _ _ _ Hvid Hcap), Hinit, bind_returns.
  cbn [negb orb Upload.truthy_pair fst snd]. rewrite Hrl.
  rewrite (upload_video_file_put _ _ _ _ _ _ Hvid), Hput.
  assert ((status_code resp =? 200) || (status_code resp =? 201) = true) as ->.
  { destruct Hcode as [-> | ->]; reflexivity. }
  rewrite bind_returns. cbn [negb fst snd app].
  destruct (Upload.poll_video_status net fuel pid tok) as [tp [s|e|]];
    cbn; by rewrite ?app_nil_r.
Qed.

(** Whatever a session returns is None or truthy. *)
Lemma direct_post_video_value (fs : filesystem) net fuel video_path tok :
  post (Upload.direct_post_video fs net fuel video_path tok)
       (λ v, v = PyNone ∨ truthy v = true).
Proof.
  unfold Upload.direct_post_video. apply post_bind_any; intros size.
  destruct (OsPath.splitext video_path) as [base ext].
  destruct (negb _); [apply post_ret; by left|].
  apply post_bind_any; intros content.
  eapply post_bind; [apply initialize_video_post_value|].
  intros [pid url] Hpid. cbn [fst] in Hpid.
  destruct (_ || _); [apply post_ret; by right|].
  apply post_bind_any; intros uploaded.
  destruct (negb uploaded); [apply post_ret; by left|].
  apply post_bind_any; intros status. by apply post_ret.
Qed.

(** [C3, as amended] A session that completes the transfer and whose poll
    step returns: the session returns the publish identifier obtained at
    initialization, whatever the final status is; the status is not part of
    the outcome, and the summary counts the video as uploaded. *)
Theorem session_returns_publish_id (fs : filesystem) net fuel video_path tok
    video content t pid url resp tp status :
  fs !! video_path = Some video →
  Os.read_text fs (caption_path video_path) = mret content →
  Upload.initialize_video_post net (Str.len video) tok (Str.strip content)
  = (t, Returns (pid, url)) →
  truthy pid = true →
  py_eq_str pid "RATE_LIMIT" = false →
  put_video net url video = Answers resp →
  status_code resp = 200 ∨ status_code resp = 201 →
  Upload.poll_video_status net fuel pid tok = (tp, Returns status) →
  Upload.direct_post_video fs net fuel video_path tok
  = (t ++ UploadPut url video :: tp, Returns pid)
  ∧ Batch.is_success pid = true.
Proof.
  intros Hvid Hcap Hinit Htruthy Hrl Hput Hcode Hpoll. split.
  - rewrite (direct_post_video_transferred _ _ _ _ _ _ _ _ _ _ _
               Hvid Hcap Hinit Hrl Hput Hcode), Hpoll.
    reflexivity.
  - unfold Batch.is_success. by rewrite Htruthy, Hrl.
Qed.

Lemma session_returns_publish_id_witness :
  Upload.direct_post_video Examples.fs_one_caption Examples.net_failed 10
    "/v/a.mp4" "tok"
  = ([InitPost "tok" 4 "cap a"; UploadPut (PyStr "https://up.example/x") "AAAA";
      StatusGet "tok" (PyStr "p1"); Sleep 5; StatusGet "tok" (PyStr "p1"); Sleep 5;
      StatusGet "tok" (PyStr "p1")],
     Returns (PyStr "p1"))
  ∧ Batch.is_success (PyStr "p1") = true.
Proof.
  apply (session_returns_publish_id Examples.fs_one_caption Examples.net_failed 10
           "/v/a.mp4" "tok" "AAAA" " cap a
" [InitPost "tok" 4 "cap a"] (PyStr "p1") (PyStr "https://up.example/x")
           (Response 201 None)
           [StatusGet "tok" (PyStr "p1"); Sleep 5; StatusGet "tok" (PyStr "p1");
            Sleep 5; StatusGet "tok" (PyStr "p1")]
           (PyStr "FAILED")).
  - vm_compute. reflexivity.
  - vm_compute. reflexivity.
  - vm_compute. reflexivity.
  - reflexivity.
  - reflexivity.
  - reflexivity.
  - right. reflexivity.
  - vm_compute. reflexivity.
Defined.

(** [C3, as stated] is refuted by a poll that ends in the status "FAILED":
    the poll step returns "FAILED", yet the session returns the publish
    identifier "p1", which is not the final status and is counted as a
    success. *)
Lemma failed_status_still_success :
  Upload.poll_video_status Examples.net_failed 10 (PyStr "p1") "tok"
  = ([StatusGet "tok" (PyStr "p1"); Sleep 5; StatusGet "tok" (PyStr "p1"); Sleep 5;
      StatusGet "tok" (PyStr "p1")],
     Returns (PyStr "FAILED"))
  ∧ value_of (Upload.direct_post_video Examples.fs_one_caption Examples.net_failed
                10 "/v/a.mp4" "tok") = PyStr "p1"
  ∧ PyStr "p1" ≠ PyStr "FAILED"
  ∧ Batch.is_success
      (value_of (Upload.direct_post_video Examples.fs_one_caption
                   Examples.net_failed 10 "/v/a.mp4" "tok")) = true.
Proof. repeat split; try (vm_compute; reflexivity). discriminate. Qed.

(** ** The batch driver *)






(** The driver prints no summary in that batch. *)
Example raising_session_no_summary :
  Batch.main Examples.fs_two_captions Examples.net_a_upload_breaks 10 (@rev _)
    ["/v/a.mp4"; "/v/b.mp4"] "tok" = Raises RequestException.
Proof. vm_compute. reflexivity. Qed.

(** The failed initialization of the first theorem crashes the batch the
    same way. *)
Example bad_init_crashes_batch :
  Batch.main Examples.fs_one_caption Examples.net_init_500 10 id
    ["/v/a.mp4"; "/v/b.mp4"] "tok" = Raises RequestException.
Proof. vm_compute. reflexivity. Qed.

(** ** The summary *)

Lemma success_failure_exclusive pub :
  ¬ (Batch.is_success pub = true ∧ Batch.is_failure pub = true).
Proof.
  unfold Batch.is_success, Batch.is_failure.
  intros [Hs Hf]. destruct pub as [|b|z|s|l|d]; cbn in *; try discriminate.
  rewrite Hf, andb_false_r in Hs. discriminate.
Qed.

(** On the values a session can return the two classes are complementary. *)
Lemma session_value_classified pub :
  pub = PyNone ∨ truthy pub = true →
  Batch.is_success pub = negb (Batch.is_failure pub).
Proof.
  unfold Batch.is_success, Batch.is_failure.
  intros [-> | Htruthy]; [done|]. rewrite Htruthy.
  by destruct pub.
Qed.


Lemma classes_cover (results : list (string * pyval)) :
  (∀ r, r ∈ results → r.2 = PyNone ∨ truthy r.2 = true) →
  (length (Batch.success results) + length (Batch.failures results))%nat
  = length results.
Proof.
  unfold Batch.success, Batch.failures. rewrite !length_map.
  induction results as [|[f pub] results IH]; intros Hall; [done|].
  rewrite !filter_cons. cbn [snd].
  assert (Batch.is_success pub = negb (Batch.is_failure pub)) as Hclass.
  { apply session_value_classified, (Hall (f, pub)). by left. }
  assert ((length (filter (λ r, Batch.is_success r.2 = true) results)
           + length (filter (λ r, Batch.is_failure r.2 = true) results))%nat
          = length results) as IH'.
  { apply IH. intros r Hr. apply Hall. by right. }
  destruct (Batch.is_failure pub) eqn:Hfail; rewrite Hclass; cbn [negb];
    repeat case_decide; try done; cbn [length]; lia.
Qed.




(** The outcomes a pool returns are session values, so the summary theorem
    applies to every batch that returns. *)
Lemma run_pool_values (fs : filesystem) net fuel as_completed files tok results :
  (∀ futures, as_completed futures ≡ₚ futures) →
  Batch.run_pool fs net fuel as_completed files tok = Returns results →
  ∀ r, r ∈ results → r.2 = PyNone ∨ truthy r.2 = true.
Proof.
  intros Hperm. unfold Batch.run_pool.
  set (futures := map (λ f, (f, Upload.direct_post_video fs net fuel f tok)) files).
  destruct (existsb _ _); [discriminate|].
  assert (Forall (λ ft : Batch.future, post ft.2 (λ v, v = PyNone ∨ truthy v = true))
            (as_completed futures)) as Hall.
  { rewrite Hperm. apply Forall_forall. intros [f session] Hin.
    apply list_elem_of_fmap in Hin as (f' & [= -> ->] & _).
    apply direct_post_video_value. }
  revert Hall. generalize (as_completed futures). clear.
  assert (∀ (l : list Batch.future) acc res,
    Forall (λ ft : Batch.future, post ft.2 (λ v, v = PyNone ∨ truthy v = true)) l →
    (∀ r, r ∈ acc → r.2 = PyNone ∨ truthy r.2 = true) →
    Batch.collect l acc = Returns res →
    ∀ r, r ∈ res → r.2 = PyNone ∨ truthy r.2 = true) as Hgen.
  { induction l as [|[f [t o]] l IH]; intros acc res Hall Hacc.
    - cbn. by intros [= <-].
    - apply Forall_cons in Hall as [Hhd Hall]. cbn.
      destruct o as [v| |]; [|discriminate..].
      apply IH; [done|]. intros r [Hr|Hr]%elem_of_app; [by apply Hacc|].
      apply list_elem_of_singleton in Hr as ->. by apply Hhd. }
  intros l Hall Hres. eapply Hgen; [exact Hall| |exact Hres].
  intros r Hr. by apply elem_of_nil in Hr.
Qed.

(** ** PKCE *)

Lemma join_choices_length allowed draws count : ∀ pos,
  String.length (Pkce.join_choices allowed draws pos count) = count.
Proof.
  induction count as [|count IH]; intros pos; [done|].
  cbn. by rewrite IH.
Qed.

Lemma join_choices_chars allowed draws (P : ascii → Prop) count : ∀ pos,
  (∀ draw, P (Pkce.choice allowed draw)) →
  ∀ c, c ∈ list_ascii_of_string (Pkce.join_choices allowed draws pos count) → P c.
Proof.
  induction count as [|count IH]; intros pos Hchoice c Hc; cbn in Hc.
  - by apply elem_of_nil in Hc.
  - apply elem_of_cons in Hc as [-> | Hc]; [apply Hchoice|by eapply IH].
Qed.

(** Every index below 66 of the verifier alphabet holds a character of the
    class; checked by running through the alphabet. *)
Lemma verifier_alphabet_unreserved draw :
  Pkce.unreserved
    (Pkce.choice (Pkce.ascii_letters +:+ Pkce.digits +:+ "-._~") draw) = true.
Proof.
  unfold Pkce.choice.
  set (allowed := Pkce.ascii_letters +:+ Pkce.digits +:+ "-._~").
  assert (forallb (λ i, Pkce.unreserved (default "000"%char (String.get i allowed)))
            (seq 0 (String.length allowed)) = true) as Hall
    by (vm_compute; reflexivity).
  rewrite forallb_forall in Hall. apply Hall, in_seq.
  split; [lia|]. cbn [Nat.add]. apply Nat.mod_upper_bound.
  vm_compute. discriminate.
Qed.

(** [C9] A verifier generated with length [L] has exactly [L] characters,
    all of them in [A-Za-z0-9-._~], whatever the draws of the generator;
    and the challenge is computed from the verifier alone, so any run that
    produces the same verifier produces the same challenge. *)
Theorem code_verifier_and_challenge (draws : nat → nat) (pos : nat) (L : Z) :
  0 ≤ L →
  Str.len (Pkce.generate_code_verifier draws pos L).1 = L
  ∧ (∀ c, c ∈ list_ascii_of_string (Pkce.generate_code_verifier draws pos L).1 →
       Pkce.unreserved c = true)
  ∧ (∀ draws' pos' L',
       (Pkce.generate_code_verifier draws' pos' L').1
       = (Pkce.generate_code_verifier draws pos L).1 →
       Pkce.generate_code_challenge (Pkce.generate_code_verifier draws' pos' L').1
       = Pkce.generate_code_challenge (Pkce.generate_code_verifier draws pos L).1).
Proof.
  intros HL. unfold Pkce.generate_code_verifier. cbn [fst]. split; [|split].
  - unfold Str.len. rewrite join_choices_length. lia.
  - apply join_choices_chars. apply verifier_alphabet_unreserved.
  - intros draws' pos' L' Heq. by rewrite Heq.
Qed.

Lemma code_verifier_and_challenge_witness :
  Str.len (Pkce.generate_code_verifier Examples.draws_by_7 3
             Pkce.default_verifier_length).1 = 64.
Proof.
  refine (proj1 (code_verifier_and_challenge Examples.draws_by_7 3
                   Pkce.default_verifier_length _)).
  vm_compute. discriminate.
Defined.

Example code_verifier_by_7 :
  Pkce.generate_code_verifier Examples.draws_by_7 3 Pkce.default_verifier_length
  = ("vCJQX4.elszGNU18bipwDKRY5_fmtAHOV29cjqxELSZ6~gnuBIPW3-dkryFMT07a", 67%nat).
Proof. vm_compute. reflexivity. Qed.

Example sha256_constants :
  Sha256.primes 8 = [2; 3; 5; 7; 11; 13; 17; 19]
  ∧ length Sha256.K = 64%nat
  ∧ head Sha256.K = Some 0x428a2f98
  ∧ last Sha256.K = Some 0xc67178f2
  ∧ head Sha256.H0 = Some 0x6a09e667
  ∧ last Sha256.H0 = Some 0x5be0cd19.
Proof. vm_compute. repeat split; reflexivity. Qed.

(** The hash agrees with the test vectors of FIPS 180-4 and with hashlib on
    a message of two blocks. *)
Example sha256_abc :
  Sha256.hexdigest (Sha256.encode "abc")
  = "ba7816bf8f01cfea414140de5dae2223b00361a396177a9cb410ff61f20015ad".
Proof. vm_compute. reflexivity. Qed.

Example sha256_empty :
  Sha256.hexdigest (Sha256.encode "")
  = "e3b0c44298fc1c149afbf4c8996fb92427ae41e4649b934ca495991b7852b855".
Proof. vm_compute. reflexivity. Qed.

Example code_challenge_alphabet :
  Pkce.generate_code_challenge
    "abcdefghijklmnopqrstuvwxyzABCDEFGHIJKLMNOPQRSTUVWXYZ0123456789-._~"
  = "226a6209df29a7832f7823676c84bbf865c4b41d311791cc203a16aaf180e628".
Proof. vm_compute. reflexivity. Qed.

(** ** The caption file, from transcribe.py to upload.py *)

Lemma process_file_caption_path video_path :
  (OsPath.splitext video_path).1 +:+ Transcribe.TRANSCRIPT_EXTENSION
  = caption_path video_path.
Proof. reflexivity. Qed.

Lemma transcript_extensions_agree :
  Transcribe.TRANSCRIPT_EXTENSION = Upload.TRANSCRIPT_EXTENSION.
Proof. reflexivity. Qed.

(** A session for a video and a caption that exist starts with the
    initialization call, with the stripped caption as the title. *)
Lemma direct_post_video_starts_with_init (fs : filesystem) net fuel video_path tok
    video content :
  fs !! video_path = Some video →
  Os.read_text fs (caption_path video_path) = mret content →
  ∃ rest,
    (Upload.direct_post_video fs net fuel video_path tok).1
    = InitPost tok (Str.len video) (Str.strip content) :: rest.
Proof.
  intros Hvid Hcap. rewrite (direct_post_video_init _ _ _ _ _ _ _ Hvid Hcap).
  pose proof (initialize_video_post_trace net (Str.len video) tok (Str.strip content))
    as Htrace.
  destruct (Upload.initialize_video_post _ _ _ _) as [t [r|e|]];
    cbn [fst] in Htrace; subst t.
  - rewrite bind_returns. cbn [fst app]. eauto.
  - rewrite bind_raises. cbn [fst]. eauto.
  - rewrite bind_diverges. cbn [fst]. eauto.
Qed.

(** [C10] When [save_description] saves a description for a video, the path
    it writes is the caption path of that video, the one the Publish Session
    reads: the file system after the save is the one before with the
    description at that path, a text-mode read of that path gives the
    description back with its line endings translated, and a session for
    the video sends that text, stripped, as the title of its initialization
    call. *)
Theorem saved_caption_is_the_one_loaded (writable : string → bool)
    (fs fs' : filesystem) video_path description txt_path :
  Transcribe.save_description writable fs video_path description
  = (fs', Some txt_path) →
  txt_path = caption_path video_path
  ∧ fs' = <[caption_path video_path := description]> fs
  ∧ Os.read_text fs' (caption_path video_path)
    = mret (Str.universal_newlines description)
  ∧ (∀ net fuel tok video,
       fs' !! video_path = Some video →
       ∃ rest,
         (Upload.direct_post_video fs' net fuel video_path tok).1
         = InitPost tok (Str.len video)
             (Str.strip (Str.universal_newlines description)) :: rest).
Proof.
  unfold Transcribe.save_description.
  pose proof (process_file_caption_path video_path) as Hpath.
  destruct (OsPath.splitext video_path) as [base ext]. cbn [fst] in Hpath.
  rewrite Hpath. destruct (writable _); [|discriminate].
  destruct (Utf8.valid description) eqn:Hvalid; intros [= <- <-].
  assert (Os.read_text (<[caption_path video_path := description]> fs)
            (caption_path video_path)
          = mret (Str.universal_newlines description)) as Hread.
  { unfold Os.read_text. by rewrite lookup_insert_eq, Hvalid. }
  split; [done|]. split; [done|]. split; [done|].
  intros net fuel tok video Hvid.
  by apply direct_post_video_starts_with_init.
Qed.

Lemma saved_caption_is_the_one_loaded_witness :
  "/v/b.txt" = caption_path "/v/b.mp4"
  ∧ (Transcribe.save_description (λ _, true) Examples.fs_one_caption
       "/v/b.mp4" "cap b").1
    = <[caption_path "/v/b.mp4" := "cap b"]> Examples.fs_one_caption
  ∧ Os.read_text
      (Transcribe.save_description (λ _, true) Examples.fs_one_caption
         "/v/b.mp4" "cap b").1 (caption_path "/v/b.mp4")
    = mret (Str.universal_newlines "cap b").
Proof.
  destruct (saved_caption_is_the_one_loaded (λ _, true) Examples.fs_one_caption
              (Transcribe.save_description (λ _, true) Examples.fs_one_caption
                 "/v/b.mp4" "cap b").1
              "/v/b.mp4" "cap b" "/v/b.txt") as (Hpath & Hfs & Hread & _).
  - vm_compute. reflexivity.
  - split; [exact Hpath|]. split; [exact Hfs|exact Hread].
Defined.

(** A description with a CR LF inside is saved as it is and reaches the
    session with a single LF. *)
Example saved_crlf_is_sent_as_lf :
  (Upload.direct_post_video
     (Transcribe.save_description (λ _, true) Examples.fs_one_caption "/v/b.mp4"
        (String "a" (String Str.CR (String Str.LF (String "b" EmptyString))))).1
     Examples.net_init_500 10 "/v/b.mp4" "tok").1
  = [InitPost "tok" 6 (String "a" (String Str.LF (String "b" EmptyString)));
     UploadPut PyNone "BBBBBB"].
Proof. vm_compute. reflexivity. Qed.

(** The whole hand-over on the example: saved by transcribe.py, published
    by upload.py with the saved caption. *)
Example saved_then_published :
  Upload.direct_post_video
    (Transcribe.save_description (λ _, true) Examples.fs_one_caption
       "/v/b.mp4" "cap b").1
    Examples.net_published 10 "/v/b.mp4" "tok"
  = ([InitPost "tok" 6 "cap b"; UploadPut (PyStr "https://up.example/x") "BBBBBB";
      StatusGet "tok" (PyStr "p1"); Sleep 5; StatusGet "tok" (PyStr "p1"); Sleep 5;
      StatusGet "tok" (PyStr "p1")],
     Returns (PyStr "p1")).
Proof. vm_compute. reflexivity. Qed.

(** * Further properties of the code *)

(** ** Initialization *)

Lemma post_py_startswith v p :
  post (py_startswith v p) (λ b, ∃ s, v = PyStr s ∧ b = Str.startswith p s).
Proof. intros b. destruct v; cbn; intros [= <-]. eauto. Qed.

Lemma post_py_str_add p v :
  post (py_str_add p v) (λ r, ∃ s, v = PyStr s ∧ r = PyStr (p +:+ s)).
Proof. intros r. destruct v; cbn; intros [= <-]. eauto. Qed.

Lemma post_bind_eq {A B} (m : run A) (f : A → run B) (Q : B → Prop) :
  (∀ a, m.2 = Returns a → post (f a) Q) → post (m ≫= f) Q.
Proof.
  intros Hf. apply (post_bind m f (λ a, m.2 = Returns a)); [by intros a|done].
Qed.

Lemma request_returns r resp : (request r).2 = Returns resp → r = Answers resp.
Proof. destruct r; cbn; [by intros [= ->]|discriminate]. Qed.

Lemma json_returns r j : (json r).2 = Returns j → body r = Some j.
Proof. unfold json. destruct (body r); cbn; [by intros [= ->]|discriminate]. Qed.

Lemma py_get_returns v k dflt x :
  (py_get v k dflt).2 = Returns x →
  ∃ d, v = PyDict d ∧ x = default dflt (dict_find k d).
Proof. destruct v; cbn; try discriminate. intros [= <-]. eauto. Qed.

(** The body of an initialization answer carries no rate-limit code: it
    has no "error", or an error object with another code. *)
Lemma no_rate_limit_check j :
  dict_find "error" j = None
  ∨ (∃ e, dict_find "error" j = Some (PyDict e)
          ∧ py_eq_str (default PyNone (dict_find "code" e)) rate_limit_code = false) →
  (if bool_decide (is_Some (dict_find "error" j)) then
     error ← py_getitem (PyDict j) "error";
     code ← py_get error "code" PyNone;
     mret (py_eq_str code "spam_risk_too_many_pending_share")
   else mret false)
  = mret false.
Proof.
  unfold py_getitem.
  intros [Herr | (e & Herr & Hcode)]; rewrite Herr.
  - by rewrite bool_decide_false by (by intros [? ?]).
  - rewrite bool_decide_true by eauto. rewrite ret_bind, py_get_dict, ret_bind.
    unfold rate_limit_code in Hcode. by rewrite Hcode.
Qed.

(** [X1] Whatever the provider answers, a pair returned by
    [initialize_video_post] is ("RATE_LIMIT", None), (None, None), or the
    truthy publish identifier of the answer together with the upload URL of
    the answer, as it is when it starts with "http" and with "https://" put
    in front when it does not. And an answer with status 200, no rate-limit
    code, a truthy publish identifier and a non-empty URL string does make
    the function return that pair. *)
Theorem initialize_video_post_result net size tok caption :
  post (Upload.initialize_video_post net size tok caption)
    (λ r, r = (PyStr "RATE_LIMIT", PyNone)
          ∨ r = (PyNone, PyNone)
          ∨ (truthy r.1 = true
             ∧ ∃ resp j d u,
                 post_init net tok size caption = Answers resp
                 ∧ status_code resp = 200
                 ∧ body resp = Some (PyDict j)
                 ∧ default (PyDict []) (dict_find "data" j) = PyDict d
                 ∧ dict_find "publish_id" d = Some r.1
                 ∧ dict_find "upload_url" d = Some (PyStr u)
                 ∧ r.2 = PyStr (if Str.startswith "http" u then u
                                else "https://" +:+ u)))
  ∧ ∀ resp j d pid u,
      post_init net tok size caption = Answers resp →
      status_code resp = 200 →
      body resp = Some (PyDict j) →
      dict_find "error" j = None
      ∨ (∃ e, dict_find "error" j = Some (PyDict e)
              ∧ py_eq_str (default PyNone (dict_find "code" e)) rate_limit_code
                = false) →
      dict_find "data" j = Some (PyDict d) →
      dict_find "publish_id" d = Some pid →
      truthy pid = true →
      dict_find "upload_url" d = Some (PyStr u) →
      u ≠ "" →
      Upload.initialize_video_post net size tok caption
      = ([InitPost tok size caption],
         Returns (pid, PyStr (if Str.startswith "http" u then u
                              else "https://" +:+ u))).
Proof.
  split.
  - unfold Upload.initialize_video_post.
    apply post_bind_any; intros _.
    apply post_bind_eq; intros resp Hresp%request_returns.
    destruct (status_code resp =? 200) eqn:Hcode; [|apply post_ret; auto].
    apply Z.eqb_eq in Hcode.
    apply post_bind_eq; intros j Hj%json_returns.
    apply post_bind_eq; intros data (jd & -> & ->)%py_get_returns.
    do 2 (apply post_bind_any; intros ?).
    match goal with |- post (if ?b then _ else _) _ => destruct b end;
      [apply post_ret; auto|].
    apply post_bind_eq; intros pid (d & Hdata & ->)%py_get_returns.
    apply post_bind_eq; intros url (d' & Hdata' & ->)%py_get_returns.
    rewrite Hdata in Hdata'. injection Hdata' as <-.
    destruct (truthy _ && truthy _) eqn:Htruthy; [|apply post_ret; auto].
    apply andb_prop in Htruthy as [Hpid _].
    eapply post_bind; [apply post_py_startswith|].
    intros has_scheme (u & Hurl & ->).
    assert (dict_find "publish_id" d
            = Some (default PyNone (dict_find "publish_id" d))) as Hfound
      by (destruct (dict_find "publish_id" d); [done|discriminate]).
    assert (dict_find "upload_url" d = Some (PyStr u)) as Hfound'
      by (destruct (dict_find "upload_url" d); [by rewrite <- Hurl|discriminate]).
    rewrite Hurl. destruct (Str.startswith "http" u) eqn:Hscheme.
    + rewrite ret_bind. apply post_ret. right. right. split; [done|].
      exists resp, jd, d, u. cbn [fst snd]. by rewrite Hscheme.
    + eapply post_bind; [apply post_py_str_add|].
      intros url' (u' & [= <-] & ->). apply post_ret. right. right.
      split; [done|]. exists resp, jd, d, u. cbn [fst snd]. by rewrite Hscheme.
  - intros resp j d pid u Hpost Hcode Hbody Hnorl Hdata Hpid Htruthy Hurl Hu.
    unfold Upload.initialize_video_post.
    rewrite Hpost, emit_bind. cbn [request]. rewrite ret_bind, Hcode, Z.eqb_refl.
    unfold json. rewrite Hbody, ret_bind, py_get_dict, ret_bind.
    unfold py_in. rewrite ret_bind, (no_rate_limit_check j Hnorl), ret_bind.
    rewrite Hdata. cbn [default from_option id].
    rewrite !py_get_dict, ret_bind, Hpid, ret_bind, Hurl.
    cbn [default from_option id]. rewrite Htruthy.
    assert (truthy (PyStr u) = true) as ->
      by (cbn; by apply negb_true_iff, String.eqb_neq).
    cbn [andb py_startswith]. rewrite ret_bind.
    destruct (Str.startswith "http" u); cbn [py_str_add]; by rewrite ret_bind.
Qed.

Lemma initialize_video_post_result_witness :
  Upload.initialize_video_post Examples.net_published 4 "tok" "cap a"
  = ([InitPost "tok" 4 "cap a"],
     Returns (PyStr "p1", PyStr "https://up.example/x")).
Proof.
  apply (proj2 (initialize_video_post_result Examples.net_published 4 "tok" "cap a")
           (Response 200
              (Some (PyDict
                 [("data", PyDict [("publish_id", PyStr "p1");
                                   ("upload_url", PyStr "up.example/x")]);
                  ("error", PyDict [("code", PyStr "ok")])])))
           [("data", PyDict [("publish_id", PyStr "p1");
                             ("upload_url", PyStr "up.example/x")]);
            ("error", PyDict [("code", PyStr "ok")])]
           [("publish_id", PyStr "p1"); ("upload_url", PyStr "up.example/x")]
           (PyStr "p1") "up.example/x").
  - reflexivity.
  - reflexivity.
  - reflexivity.
  - right. exists [("code", PyStr "ok")]. split; reflexivity.
  - reflexivity.
  - reflexivity.
  - reflexivity.
  - reflexivity.
  - discriminate.
Defined.

(** [X2] [initialize_video_post] makes exactly one network call, the POST
    carrying the token, the file size and the caption, whatever the reply
    and however the function ends (no retry, no second request). *)
Theorem initialization_makes_one_call net size tok caption :
  (Upload.initialize_video_post net size tok caption).1
  = [InitPost tok size caption].
Proof. apply initialize_video_post_trace. Qed.

(** [X3] A reply with HTTP 200 whose body is not JSON makes
    [initialize_video_post] raise JSONDecodeError, and one whose body is JSON
    but not an object makes it raise AttributeError: neither is turned into
    the (None, None) of a failed initialization. *)
Theorem initialization_raises_on_malformed_body net size tok caption resp :
  post_init net tok size caption = Answers resp →
  status_code resp = 200 →
  (∀ d, body resp ≠ Some (PyDict d)) →
  Upload.initialize_video_post net size tok caption
  = ([InitPost tok size caption],
     Raises (match body resp with
             | None => JSONDecodeError
             | Some _ => AttributeError
             end)).
Proof.
  intros Hpost Hcode Hbody. unfold Upload.initialize_video_post.
  rewrite Hpost, emit_bind. cbn [request]. rewrite ret_bind, Hcode, Z.eqb_refl.
  unfold json. destruct (body resp) as [j|]; [|reflexivity].
  rewrite ret_bind. destruct j; try reflexivity. by destruct (Hbody d).
Qed.

Lemma initialization_raises_on_malformed_body_witness :
  Upload.initialize_video_post
    (Network (λ _ _ _, Answers (Response 200 (Some (PyList []))))
             Examples.put_created (λ _ _ _, Fails))
    4 "tok" "cap a"
  = ([InitPost "tok" 4 "cap a"], Raises AttributeError).
Proof.
  apply (initialization_raises_on_malformed_body
           (Network (λ _ _ _, Answers (Response 200 (Some (PyList []))))
                    Examples.put_created (λ _ _ _, Fails))
           4 "tok" "cap a" (Response 200 (Some (PyList [])))).
  - reflexivity.
  - reflexivity.
  - intros d. discriminate.
Defined.

(** ** The upload call and the session around it *)

(** [X4] [upload_video_file] for a video that exists makes exactly one PUT,
    to the URL it was given and with the whole content of the file; it
    returns True exactly when the status is 200 or 201, and raises when the
    client raises. *)
Theorem upload_is_one_put_of_the_whole_file (fs : filesystem) net upload_url
    video_path caption video :
  fs !! video_path = Some video →
  Upload.upload_video_file fs net upload_url video_path caption
  = ([UploadPut upload_url video],
     match put_video net upload_url video with
     | Answers resp =>
         Returns (bool_decide (status_code resp = 200 ∨ status_code resp = 201))
     | Fails => Raises RequestException
     end).
Proof.
  intros Hvid. rewrite (upload_video_file_put _ _ _ _ _ _ Hvid).
  destruct (put_video net upload_url video) as [resp|]; [|done].
  do 2 f_equal. apply eq_true_iff_eq.
  rewrite orb_true_iff, !Z.eqb_eq, bool_decide_eq_true. done.
Qed.

Lemma upload_is_one_put_of_the_whole_file_witness :
  Upload.upload_video_file Examples.fs_one_caption Examples.net_published
    (PyStr "https://up.example/x") "/v/a.mp4" "cap a"
  = ([UploadPut (PyStr "https://up.example/x") "AAAA"], Returns true).
Proof.
  apply (upload_is_one_put_of_the_whole_file Examples.fs_one_caption
           Examples.net_published (PyStr "https://up.example/x") "/v/a.mp4" "cap a"
           "AAAA").
  vm_compute. reflexivity.
Defined.

(** [X5] A session whose upload is answered with a status other than 200
    and 201 returns None and never polls: its events are those of the
    initialization and the one PUT. *)
Theorem rejected_upload_fails_without_polling (fs : filesystem) net fuel
    video_path tok video content t pid url resp :
  fs !! video_path = Some video →
  Os.read_text fs (caption_path video_path) = mret content →
  Upload.initialize_video_post net (Str.len video) tok (Str.strip content)
  = (t, Returns (pid, url)) →
  py_eq_str pid "RATE_LIMIT" = false →
  put_video net url video = Answers resp →
  status_code resp ≠ 200 →
  status_code resp ≠ 201 →
  Upload.direct_post_video fs net fuel video_path tok
  = (t ++ [UploadPut url video], Returns PyNone).
Proof.
  intros Hvid Hcap Hinit Hrl Hput H200 H201.
  rewrite (direct_post_video_init _ _ _ _ _ _ _ Hvid Hcap), Hinit, bind_returns.
  cbn [negb orb Upload.truthy_pair fst snd]. rewrite Hrl.
  rewrite (upload_video_file_put _ _ _ _ _ _ Hvid), Hput.
  apply Z.eqb_neq in H200, H201. rewrite H200, H201. reflexivity.
Qed.

Lemma rejected_upload_fails_without_polling_witness :
  Upload.direct_post_video Examples.fs_one_caption
    (Network (λ _ _ _, Examples.init_ok "p1" "https://up.example/x")
             (λ _ _, Answers (Response 403 None)) (λ _ _ _, Fails))
    10 "/v/a.mp4" "tok"
  = ([InitPost "tok" 4 "cap a"; UploadPut (PyStr "https://up.example/x") "AAAA"],
     Returns PyNone).
Proof.
  apply (rejected_upload_fails_without_polling Examples.fs_one_caption
           (Network (λ _ _ _, Examples.init_ok "p1" "https://up.example/x")
                    (λ _ _, Answers (Response 403 None)) (λ _ _ _, Fails))
           10 "/v/a.mp4" "tok" "AAAA" " cap a
" [InitPost "tok" 4 "cap a"] (PyStr "p1") (PyStr "https://up.example/x")
           (Response 403 None)).
  - vm_compute. reflexivity.
  - vm_compute. reflexivity.
  - vm_compute. reflexivity.
  - reflexivity.
  - reflexivity.
  - cbn. lia.
  - cbn. lia.
Defined.

(** [X6] A session for a path at which there is no video file raises
    OSError at once, from the size query that opens [direct_post_video]:
    before the caption is looked for (so also when the caption exists) and
    before any network call. *)
Theorem missing_video_raises_before_anything (fs : filesystem) net fuel
    video_path tok :
  fs !! video_path = None →
  Upload.direct_post_video fs net fuel video_path tok = ([], Raises OSError).
Proof.
  intros Hvid. unfold Upload.direct_post_video, Os.getsize. by rewrite Hvid.
Qed.

Lemma missing_video_raises_before_anything_witness :
  Upload.direct_post_video (<["/v/c.txt" := "cap c"]> Examples.fs_one_caption)
    Examples.net_published 10 "/v/c.mp4" "tok" = ([], Raises OSError).
Proof.
  apply (missing_video_raises_before_anything
           (<["/v/c.txt" := "cap c"]> Examples.fs_one_caption)
           Examples.net_published 10 "/v/c.mp4" "tok").
  vm_compute. reflexivity.
Defined.

(** [X24] A session for a video whose caption file is not valid UTF-8
    raises UnicodeDecodeError from the text-mode read, before any network
    call: nothing is sent to the provider. *)
Theorem undecodable_caption_raises_before_init (fs : filesystem) net fuel
    video_path tok video bytes :
  fs !! video_path = Some video →
  fs !! caption_path video_path = Some bytes →
  Utf8.valid bytes = false →
  Upload.direct_post_video fs net fuel video_path tok
  = ([], Raises UnicodeDecodeError).
Proof.
  intros Hvid Hcap Hbad. unfold Upload.direct_post_video, caption_path in *.
  destruct (OsPath.splitext video_path) as [base ext]. cbn [fst] in Hcap.
  unfold Os.getsize, Os.exists_, Os.read_text. rewrite Hvid, Hcap, Hbad, ret_bind.
  rewrite bool_decide_true by eauto. reflexivity.
Qed.

Lemma undecodable_caption_raises_before_init_witness :
  Upload.direct_post_video Examples2.fs_latin1_caption Examples.net_published 10
    "/v/a.mp4" "tok" = ([], Raises UnicodeDecodeError).
Proof.
  apply (undecodable_caption_raises_before_init Examples2.fs_latin1_caption
           Examples.net_published 10 "/v/a.mp4" "tok" "AAAA"
           Examples2.latin1_caption).
  - vm_compute. reflexivity.
  - vm_compute. reflexivity.
  - vm_compute. reflexivity.
Defined.

(** ** One turn of the poll loop *)

(** A turn of the loop is its one query, and then what [poll_turn] says of
    the reply. *)
Lemma poll_loop_step net fuel pid tok n :
  Upload.poll_loop net (S fuel) pid tok n
  = match poll_turn (get_status net tok pid n) with
    | Some o => ([StatusGet tok pid], o)
    | None =>
        (StatusGet tok pid :: Sleep 5 :: (Upload.poll_loop net fuel pid tok (S n)).1,
         (Upload.poll_loop net fuel pid tok (S n)).2)
    end.
Proof.
  cbn [Upload.poll_loop]. rewrite emit_bind. unfold poll_turn.
  destruct (get_status net tok pid n) as [[code bd]|]; cbn [request];
    [rewrite ret_bind|done].
  cbn [status_code body]. destruct (code =? 200).
  - unfold json. cbn [body].
    destruct bd as [j|]; [rewrite ret_bind|done].
    destruct j as [| | | | |d]; try done.
    rewrite py_get_dict, ret_bind.
    destruct (default (PyDict []) (dict_find "data" d)) as [| | | | |d']; try done.
    rewrite py_get_dict, ret_bind.
    destruct (py_eq_str _ _); cbn [negb]; [by rewrite emit_bind|done].
  - destruct (code =? 404); [done|by rewrite emit_bind].
Qed.

(** A status that ends the loop is never "PROCESSING_UPLOAD". *)
Lemma poll_turn_returns r s :
  poll_turn r = Some (Returns s) → py_eq_str s "PROCESSING_UPLOAD" = false.
Proof.
  unfold poll_turn. destruct r as [[code bd]|]; [|discriminate]. cbn [status_code body].
  destruct (code =? 200).
  - destruct bd as [[| | | | |d]|]; try discriminate.
    destruct (default (PyDict []) (dict_find "data" d)) as [| | | | |d'];
      try discriminate.
    destruct (py_eq_str _ _) eqn:Hs; [discriminate|]. by intros [= <-].
  - destruct (code =? 404); [|discriminate]. by intros [= <-].
Qed.

(** A turn that ends the loop does not leave it running. *)
Lemma poll_turn_ends r : poll_turn r ≠ Some Diverges.
Proof.
  unfold poll_turn. destruct r as [[code bd]|]; [|discriminate]. cbn [status_code body].
  destruct (code =? 200).
  - destruct bd as [[| | | | |d]|]; try discriminate.
    destruct (default (PyDict []) (dict_find "data" d)); try discriminate.
    destruct (py_eq_str _ _); discriminate.
  - destruct (code =? 404); discriminate.
Qed.

Lemma poll_loop_events net fuel pid tok : ∀ n,
  Forall (λ e, e = StatusGet tok pid ∨ e = Sleep 5)
    (Upload.poll_loop net fuel pid tok n).1.
Proof.
  induction fuel as [|fuel IH]; intros n; [by apply Forall_nil|].
  rewrite poll_loop_step. destruct (poll_turn _); cbn [fst]; auto.
Qed.

(** [X7] The events of a session, in every world and however it ends, are
    in the order of the three steps and no step is repeated: nothing at all,
    or one initialization POST, then at most one PUT, then only status
    queries for one publish identifier and sleeps of 5 seconds. *)
Theorem session_steps_in_order (fs : filesystem) net fuel video_path tok :
  (Upload.direct_post_video fs net fuel video_path tok).1 = []
  ∨ ∃ size caption rest,
      (Upload.direct_post_video fs net fuel video_path tok).1
      = InitPost tok size caption :: rest
      ∧ (rest = []
         ∨ ∃ url video pid polls,
             rest = UploadPut url video :: polls
             ∧ Forall (λ e, e = StatusGet tok pid ∨ e = Sleep 5) polls).
Proof.
  unfold Upload.direct_post_video, Os.getsize, Os.exists_, Os.read_text.
  destruct (fs !! video_path) as [video|] eqn:Hvid; [rewrite ret_bind|by left].
  destruct (OsPath.splitext video_path) as [base ext].
  destruct (negb _); [by left|].
  destruct (fs !! (base +:+ Upload.TRANSCRIPT_EXTENSION)) as [bytes|]; [|by left].
  destruct (Utf8.valid bytes); [rewrite ret_bind|by left].
  set (content := Str.universal_newlines bytes).
  right. exists (Str.len video), (Str.strip content).
  pose proof (initialize_video_post_trace net (Str.len video) tok (Str.strip content))
    as Htrace.
  destruct (Upload.initialize_video_post _ _ _ _) as [t [[pid url]|e|]];
    cbn [fst] in Htrace; subst t;
    [rewrite bind_returns|rewrite bind_raises; eauto|rewrite bind_diverges; eauto].
  cbn [fst app]. eexists. split; [reflexivity|].
  destruct (_ || _); [by left|].
  rewrite (upload_video_file_put _ _ _ _ _ _ Hvid).
  destruct (put_video net url video) as [resp|];
    [rewrite bind_returns|rewrite bind_raises; right; by exists url, video, pid, []].
  cbn [fst app]. right. exists url, video, pid. eexists. split; [reflexivity|].
  destruct (negb _); [by apply Forall_nil|].
  unfold Upload.poll_video_status.
  pose proof (poll_loop_events net fuel pid tok 0) as Hpolls.
  destruct (Upload.poll_loop net fuel pid tok 0) as [tp [s|e|]]; cbn [fst] in Hpolls;
    rewrite ?bind_returns, ?bind_raises, ?bind_diverges; cbn [fst];
    by rewrite ?app_nil_r.
Qed.

(** ** The poll step as a whole *)

Lemma poll_loop_never_processing net pid tok fuel : ∀ n,
  post (Upload.poll_loop net fuel pid tok n)
       (λ s, py_eq_str s "PROCESSING_UPLOAD" = false).
Proof.
  induction fuel as [|fuel IH]; intros n s; [discriminate|].
  rewrite poll_loop_step. destruct (poll_turn _) as [o|] eqn:Hturn; cbn [snd].
  - intros ->. by apply poll_turn_returns in Hturn.
  - apply IH.
Qed.

(** [X8] The status returned by the poll step is never "PROCESSING_UPLOAD":
    the step only returns once the provider reports something else (or
    answers 404). *)
Theorem poll_never_returns_processing net fuel pid tok :
  post (Upload.poll_video_status net fuel pid tok)
       (λ s, py_eq_str s "PROCESSING_UPLOAD" = false).
Proof. apply poll_loop_never_processing. Qed.

Lemma poll_never_returns_processing_witness :
  py_eq_str (PyStr "PUBLISH_COMPLETE") "PROCESSING_UPLOAD" = false.
Proof.
  apply (poll_never_returns_processing Examples.net_published 10 (PyStr "p1") "tok").
  vm_compute. reflexivity.
Defined.

Lemma poll_loop_ended net pid tok fuel : ∀ n t o,
  Upload.poll_loop net fuel pid tok n = (t, o) →
  o ≠ Diverges →
  ∃ k, (k < fuel)%nat ∧ t = retries k tok pid ++ [StatusGet tok pid].
Proof.
  induction fuel as [|fuel IH]; intros n t o.
  - intros [= <- <-] Ho. by destruct Ho.
  - rewrite poll_loop_step. destruct (poll_turn _) as [o'|].
    + intros [= <- <-] _. exists 0%nat. split; [lia|done].
    + intros [= <- <-] Ho.
      destruct (IH (S n) _ _ (eq_sym (run_eta _)) Ho) as (k & Hk & ->).
      exists (S k). split; [lia|done].
Qed.

(** [X9] Whenever the poll step ends, by returning a status or by raising,
    its events are some number [k] of rounds of one query and one sleep of 5
    seconds, followed by one last query: every query but the last is
    followed by exactly one sleep, and nothing follows the last. *)
Theorem poll_ends_after_whole_rounds net fuel pid tok t o :
  Upload.poll_video_status net fuel pid tok = (t, o) →
  o ≠ Diverges →
  ∃ k, (k < fuel)%nat
       ∧ t = retries k tok pid ++ [StatusGet tok pid]
       ∧ length (filter (λ e, is_sleep e = true) t) = k.
Proof.
  intros Hrun Ho. destruct (poll_loop_ended _ _ _ _ _ _ _ Hrun Ho) as (k & Hk & ->).
  exists k. split; [done|]. split; [done|]. clear.
  induction k as [|k IH]; [done|]. cbn [retries app].
  rewrite filter_cons_False by (cbn; discriminate).
  rewrite filter_cons_True by done. cbn [length]. by rewrite IH.
Qed.

Lemma poll_ends_after_whole_rounds_witness :
  ∃ k, (k < 10)%nat
       ∧ [StatusGet "tok" (PyStr "p1"); Sleep 5; StatusGet "tok" (PyStr "p1")]
         = retries k "tok" (PyStr "p1") ++ [StatusGet "tok" (PyStr "p1")]
       ∧ length (filter (λ e, is_sleep e = true)
                   [StatusGet "tok" (PyStr "p1"); Sleep 5;
                    StatusGet "tok" (PyStr "p1")]) = k.
Proof.
  apply (poll_ends_after_whole_rounds Examples.net_404_second 10 (PyStr "p1") "tok"
           _ (Returns (PyStr "COMPLETED"))).
  - vm_compute. reflexivity.
  - discriminate.
Defined.

(** [X10] The poll loop has no attempt cap: while every reply is pending
    (still "PROCESSING_UPLOAD", or an HTTP status other than 200 and 404),
    the step has not ended after any number of turns; after [fuel] turns it
    has made [fuel] queries and slept [fuel] times. *)
Theorem poll_never_ends_while_pending net pid tok :
  (∀ n, pending (get_status net tok pid n)) →
  ∀ fuel,
    Upload.poll_video_status net fuel pid tok = (retries fuel tok pid, Diverges).
Proof.
  intros Hpending fuel. unfold Upload.poll_video_status.
  rewrite <- (Nat.add_0_r fuel) at 1.
  rewrite poll_loop_retries by (intros i _; apply Hpending).
  cbn. by rewrite app_nil_r.
Qed.

Lemma poll_never_ends_while_pending_witness :
  Upload.poll_video_status
    (Network (λ _ _ _, Fails) (λ _ _, Fails) (λ _ _ _, Answers (Response 500 None)))
    2 (PyStr "p1") "tok"
  = ([StatusGet "tok" (PyStr "p1"); Sleep 5; StatusGet "tok" (PyStr "p1"); Sleep 5],
     Diverges).
Proof.
  apply (poll_never_ends_while_pending
           (Network (λ _ _ _, Fails) (λ _ _, Fails)
                    (λ _ _ _, Answers (Response 500 None)))
           (PyStr "p1") "tok").
  intros n. right. exists (Response 500 None). repeat split; cbn; lia.
Defined.

(** [X11] A reply with HTTP 200 whose body has no status (no "data" object,
    or a "data" object without "status") ends the poll at once: the missing
    status reads as None, which is not "PROCESSING_UPLOAD", and None is what
    the step returns. *)
Theorem poll_returns_none_without_status net fuel pid tok j :
  get_status net tok pid 0 = Answers (Response 200 (Some (PyDict j))) →
  dict_find "data" j = None
  ∨ (∃ d, dict_find "data" j = Some (PyDict d) ∧ dict_find "status" d = None) →
  Upload.poll_video_status net (S fuel) pid tok
  = ([StatusGet tok pid], Returns PyNone).
Proof.
  intros Hreply Hmissing. unfold Upload.poll_video_status.
  rewrite poll_loop_step, Hreply. unfold poll_turn. cbn [status_code body].
  rewrite Z.eqb_refl.
  destruct Hmissing as [-> | (d & -> & Hstatus)]; cbn [default from_option id dict_find];
    [done|]. by rewrite Hstatus.
Qed.

Lemma poll_returns_none_without_status_witness :
  Upload.poll_video_status
    (Network (λ _ _ _, Fails) (λ _ _, Fails)
             (λ _ _ _, Examples.json_response 200 [("data", PyDict [])]))
    1 (PyStr "p1") "tok"
  = ([StatusGet "tok" (PyStr "p1")], Returns PyNone).
Proof.
  apply (poll_returns_none_without_status
           (Network (λ _ _ _, Fails) (λ _ _, Fails)
                    (λ _ _ _, Examples.json_response 200 [("data", PyDict [])]))
           0 (PyStr "p1") "tok" [("data", PyDict [])]).
  - reflexivity.
  - right. exists []. split; reflexivity.
Defined.

(** ** More on the batch driver *)

Lemma collect_length (futures : list Batch.future) : ∀ acc results,
  Batch.collect futures acc = Returns results →
  length results = (length acc + length futures)%nat.
Proof.
  induction futures as [|[f [t o]] futures IH]; intros acc results; cbn.
  - intros [= <-]. lia.
  - destruct o as [v|e|]; [|discriminate..]. intros Hres.
    rewrite (IH _ _ Hres), length_app. cbn. lia.
Qed.

Lemma collect_raises (futures : list Batch.future) : ∀ acc,
  Forall (λ ft : Batch.future, ft.2.2 ≠ Diverges) futures →
  Exists (λ ft : Batch.future, ∃ e, ft.2.2 = Raises e) futures →
  ∃ e, Batch.collect futures acc = Raises e.
Proof.
  induction futures as [|[f [t o]] futures IH]; intros acc Hno Hex.
  - by apply Exists_nil in Hex.
  - apply Forall_cons in Hno as [Ho Hno]. cbn in Ho |- *.
    destruct o as [v|e|]; [|by exists e|by destruct Ho].
    apply Exists_cons in Hex as [(e & He)|Hex]; [discriminate|].
    by apply IH.
Qed.

(** [X12] In a batch where every session ends, one session that raises is
    enough to make the driver raise: no (video, outcome) pair is returned
    and no summary is printed, whatever the other sessions returned and in
    whatever order they completed. *)
Theorem one_raising_session_raises_the_batch (fs : filesystem) net fuel
    (as_completed : list Batch.future → list Batch.future) files tok f e :
  (∀ futures, as_completed futures ≡ₚ futures) →
  (∀ f', f' ∈ files →
     (Upload.direct_post_video fs net fuel f' tok).2 ≠ Diverges) →
  f ∈ files →
  (Upload.direct_post_video fs net fuel f tok).2 = Raises e →
  ∃ e', Batch.run_pool fs net fuel as_completed files tok = Raises e'
        ∧ Batch.main fs net fuel as_completed files tok = Raises e'.
Proof.
  intros Hperm Hend Hf He. unfold Batch.main, Batch.run_pool.
  set (futures := map (λ f, (f, Upload.direct_post_video fs net fuel f tok)) files).
  assert (Forall (λ ft : Batch.future, ft.2.2 ≠ Diverges) futures) as Hno.
  { apply Forall_forall. intros [f' session] Hin.
    apply list_elem_of_fmap in Hin as (f'' & [= -> ->] & Hf''). by apply Hend. }
  assert (existsb Batch.diverges futures = false) as ->.
  { clear -Hno. induction Hno as [|[f' [t o]] l Ho _ IH]; [done|].
    cbn in Ho |- *. destruct o; try done. }
  assert (∃ e', Batch.collect (as_completed futures) [] = Raises e') as [e' He'].
  { apply collect_raises; rewrite Hperm; [done|].
    apply Exists_exists. exists (f, Upload.direct_post_video fs net fuel f tok).
    split; [|by exists e]. unfold futures.
    by apply (list_elem_of_fmap_2 (λ f, (f, Upload.direct_post_video fs net fuel f tok))). }
  exists e'. by rewrite He'.
Qed.

Lemma one_raising_session_raises_the_batch_witness :
  ∃ e', Batch.run_pool Examples.fs_two_captions Examples.net_a_upload_breaks 10
          (@rev _) ["/v/a.mp4"; "/v/b.mp4"] "tok" = Raises e'
        ∧ Batch.main Examples.fs_two_captions Examples.net_a_upload_breaks 10
            (@rev _) ["/v/a.mp4"; "/v/b.mp4"] "tok" = Raises e'.
Proof.
  apply (one_raising_session_raises_the_batch Examples.fs_two_captions
           Examples.net_a_upload_breaks 10 (@rev _) ["/v/a.mp4"; "/v/b.mp4"] "tok"
           "/v/a.mp4" RequestException).
  - intros futures. symmetry. apply Permutation_rev.
  - intros f' Hf'. apply list_elem_of_In in Hf'.
    destruct Hf' as [<-|[<-|[]]]; vm_compute; discriminate.
  - by left.
  - vm_compute. reflexivity.
Defined.

(** [X13] In every batch that returns, the summary accounts for each
    submitted video exactly once: the number of pairs is the number of
    videos, and the names listed as uploaded and as failed add up to it. *)
Theorem summary_accounts_for_every_video (fs : filesystem) net fuel
    (as_completed : list Batch.future → list Batch.future) files tok results :
  (∀ futures, as_completed futures ≡ₚ futures) →
  Batch.run_pool fs net fuel as_completed files tok = Returns results →
  length results = length files
  ∧ (length (Batch.success results) + length (Batch.failures results))%nat
    = length files
  ∧ Batch.main fs net fuel as_completed files tok = Returns (Batch.summary results)
  ∧ "Total files processed: " +:+ pretty (length files) ∈ Batch.summary results.
Proof.
  intros Hperm Hrun.
  assert (length results = length files) as Hlen.
  { revert Hrun. unfold Batch.run_pool. destruct (existsb _ _); [discriminate|].
    intros Hres%collect_length. by rewrite Hres, Hperm, length_map. }
  split; [done|]. split.
  { rewrite <- Hlen. apply classes_cover.
    by apply (run_pool_values fs net fuel as_completed files tok). }
  split; [unfold Batch.main; by rewrite Hrun|].
  rewrite <- Hlen. unfold Batch.summary. rewrite !elem_of_app. left. set_solver.
Qed.

Lemma summary_accounts_for_every_video_witness :
  length [("/v/b.mp4", PyNone); ("/v/a.mp4", PyStr "p1")] = 2%nat.
Proof.
  refine (proj1 (summary_accounts_for_every_video Examples.fs_one_caption
                   Examples.net_published 10 (@rev _) ["/v/a.mp4"; "/v/b.mp4"] "tok"
                   [("/v/b.mp4", PyNone); ("/v/a.mp4", PyStr "p1")] _ _)).
  - intros futures. symmetry. apply Permutation_rev.
  - vm_compute. reflexivity.
Defined.

(** ** The token exchange *)

(** [X14] [exchange_code_for_token] makes its one call and then returns,
    without raising, in these cases: None for every status other than 200,
    and for status 200 with a JSON object the "access_token" of the object
    when it is truthy and None when it is missing, null or empty. So what it
    returns is None or a truthy token taken from a reply with status 200. *)
Theorem exchanged_token_is_none_or_truthy post_token code code_verifier :
  post (Front.exchange_code_for_token post_token code code_verifier)
    (λ v, v = PyNone
          ∨ (truthy v = true
             ∧ ∃ resp d, post_token code code_verifier = Answers resp
                         ∧ status_code resp = 200
                         ∧ body resp = Some (PyDict d)
                         ∧ dict_find "access_token" d = Some v))
  ∧ (∀ resp,
       post_token code code_verifier = Answers resp →
       status_code resp ≠ 200 →
       Front.exchange_code_for_token post_token code code_verifier
       = ([], Returns PyNone))
  ∧ (∀ resp d,
       post_token code code_verifier = Answers resp →
       status_code resp = 200 →
       body resp = Some (PyDict d) →
       Front.exchange_code_for_token post_token code code_verifier
       = ([], Returns match dict_find "access_token" d with
                      | Some token => if truthy token then token else PyNone
                      | None => PyNone
                      end)).
Proof.
  split; [|split].
  - unfold Front.exchange_code_for_token.
    destruct (post_token code code_verifier) as [resp|]; cbn [request];
      [rewrite ret_bind|apply post_raise].
    destruct (status_code resp =? 200) eqn:Hcode; [|apply post_ret; by left].
    apply Z.eqb_eq in Hcode. unfold json.
    destruct (body resp) as [j|] eqn:Hbody; [rewrite ret_bind|apply post_raise].
    destruct j as [| | | | |d]; try apply post_raise.
    rewrite py_get_dict, ret_bind.
    destruct (dict_find "access_token" d) as [v|] eqn:Hfind;
      cbn [default from_option id]; [|apply post_ret; by left].
    destruct (truthy v) eqn:Htruthy; apply post_ret; [right|by left].
    split; [done|]. by exists resp, d.
  - intros resp Hpost Hcode. unfold Front.exchange_code_for_token.
    rewrite Hpost. cbn [request]. rewrite ret_bind.
    apply Z.eqb_neq in Hcode. by rewrite Hcode.
  - intros resp d Hpost Hcode Hbody. unfold Front.exchange_code_for_token.
    rewrite Hpost. cbn [request]. rewrite ret_bind, Hcode, Z.eqb_refl.
    unfold json. rewrite Hbody, ret_bind, py_get_dict, ret_bind.
    destruct (dict_find "access_token" d) as [token|]; cbn [default from_option id];
      [|done].
    by destruct (truthy token).
Qed.

Lemma exchanged_token_is_none_or_truthy_witness :
  Front.exchange_code_for_token (λ _ _, Examples2.token_reply (PyStr "")) "c" "v"
  = ([], Returns PyNone).
Proof.
  apply (proj2 (proj2 (exchanged_token_is_none_or_truthy
                         (λ _ _, Examples2.token_reply (PyStr "")) "c" "v"))
           (Response 200 (Some (PyDict [("access_token", PyStr "")])))
           [("access_token", PyStr "")]).
  - reflexivity.
  - reflexivity.
  - reflexivity.
Defined.

Example exchange_empty_token :
  Front.exchange_code_for_token (λ _ _, Examples2.token_reply (PyStr "")) "c" "v"
  = ([], Returns PyNone).
Proof. reflexivity. Qed.

(** ** File discovery *)

Lemma append_cons (x : ascii) (a b : string) :
  String x a +:+ b = String x (a +:+ b).
Proof. reflexivity. Qed.

Lemma append_assoc (a b c : string) : (a +:+ b) +:+ c = a +:+ (b +:+ c).
Proof. induction a as [|x a IH]; [done|]. rewrite !append_cons. by f_equal. Qed.

Lemma length_append (a b : string) :
  String.length (a +:+ b) = (String.length a + String.length b)%nat.
Proof.
  induction a as [|x a IH]; [done|]. rewrite append_cons. cbn. by f_equal.
Qed.

Lemma endswith_spec suffix s :
  Text.endswith suffix s = true ↔ ∃ pre, s = pre +:+ suffix.
Proof.
  induction s as [|c s IH]; cbn.
  - rewrite orb_false_r, String.eqb_eq. split.
    + intros ->. by exists "".
    + intros ([|x pre] & Hpre); [done|discriminate].
  - rewrite orb_true_iff, String.eqb_eq, IH. split.
    + intros [-> | (pre & ->)]; [by exists ""|by exists (String c pre)].
    + intros ([|x pre] & Hpre); [by left|].
      injection Hpre as -> ->. right. by exists pre.
Qed.

Lemma endswith_append suffix a b :
  Text.endswith suffix b = true → Text.endswith suffix (a +:+ b) = true.
Proof.
  rewrite !endswith_spec. intros (pre & ->). exists (a +:+ pre).
  by rewrite append_assoc.
Qed.

Lemma lower_append a b : Text.lower (a +:+ b) = Text.lower a +:+ Text.lower b.
Proof.
  induction a as [|x a IH]; [done|]. rewrite append_cons. cbn [Text.lower].
  by rewrite append_cons, IH.
Qed.

Lemma rfind_from_append c a b : ∀ i last,
  Str.rfind_from c (a +:+ b) i last
  = Str.rfind_from c b (i + Str.len a) (Str.rfind_from c a i last).
Proof.
  induction a as [|x a IH]; intros i last.
  - unfold Str.len. cbn. by rewrite Z.add_0_r.
  - rewrite append_cons. cbn [Str.rfind_from]. rewrite IH. f_equal.
    unfold Str.len. cbn [String.length]. lia.
Qed.

Lemma rfind_from_lacks c s : ∀ i last,
  Text.lacks c s = true → Str.rfind_from c s i last = last.
Proof.
  induction s as [|x s IH]; intros i last; [done|]. cbn.
  intros [Hx Hs]%andb_prop. apply negb_true_iff in Hx. rewrite Hx. by apply IH.
Qed.

Lemma substring_all s : String.substring 0 (String.length s) s = s.
Proof. induction s as [|x s IH]; [done|]. cbn. f_equal. exact IH. Qed.

Lemma substring_drop a b :
  String.substring (String.length a) (String.length b) (a +:+ b) = b.
Proof. induction a as [|x a IH]; [apply substring_all|]. exact IH. Qed.

(** A joined path is the entry behind nothing or behind a prefix that ends
    with the separator. *)
Lemma join_shape directory f :
  Text.lacks "/" f = true →
  ∃ pre, Posix.join directory f = pre +:+ f ∧ (pre = "" ∨ ∃ p, pre = p +:+ "/").
Proof.
  intros Hf. unfold Posix.join.
  assert (Str.startswith "/" f = false) as ->.
  { destruct f as [|x f]; [done|]. cbn [Text.lacks] in Hf.
    unfold Str.startswith. cbn [String.prefix].
    destruct (ascii_dec "/" x) as [<-|Hne]; [|done].
    by rewrite Ascii.eqb_refl in Hf. }
  destruct (String.eqb directory "") eqn:Hempty; cbn [orb].
  - apply String.eqb_eq in Hempty as ->. exists "". by split; [|left].
  - destruct (Text.endswith "/" directory) eqn:Hsep.
    + exists directory. split; [done|]. right. by apply endswith_spec.
    + exists (directory +:+ "/"). split; [by rewrite append_assoc|]. right. eauto.
Qed.

Lemma basename_join directory f :
  Text.lacks "/" f = true → OsPath.basename (Posix.join directory f) = f.
Proof.
  intros Hf. destruct (join_shape directory f Hf) as (pre & -> & [-> | (p & ->)]);
    unfold OsPath.basename, Str.rfind, Str.slice.
  - cbn [String.append]. rewrite rfind_from_lacks by done.
    cbn [Z.add Z.opp Z.pos_sub Z.to_nat]. rewrite Z.sub_0_r. unfold Str.len.
    rewrite Nat2Z.id. apply substring_all.
  - rewrite !rfind_from_append, (rfind_from_lacks _ f) by done. cbn [Str.rfind_from].
    rewrite Ascii.eqb_refl. unfold Str.len. rewrite !length_append. cbn [String.length].
    replace (Z.to_nat (0 + Z.of_nat (String.length p) + 1))
      with (String.length (p +:+ "/")) by (rewrite length_append; cbn; lia).
    replace (Z.to_nat (Z.of_nat (String.length p + 1 + String.length f)
                       - (0 + Z.of_nat (String.length p) + 1)))
      with (String.length f) by lia.
    apply substring_drop.
Qed.

(** [X15] For a directory whose listing succeeds, [get_files_from_dir]
    returns one path per entry whose name ends with ".mp4" in any letter
    case, in listing order: the base names of the paths are exactly those
    entries, and each path still ends with ".mp4" up to case. *)
Theorem discovered_files_are_the_mp4_entries listdir directory names :
  listdir directory = Some names →
  (∀ f, f ∈ names → Text.lacks "/" f = true) →
  ∃ paths,
    Front.get_files_from_dir listdir directory = Returns paths
    ∧ map OsPath.basename paths
      = filter (λ f, Text.endswith ".mp4" (Text.lower f) = true) names
    ∧ ∀ p, p ∈ paths → Text.endswith ".mp4" (Text.lower p) = true.
Proof.
  intros Hlist Hnames. unfold Front.get_files_from_dir. rewrite Hlist.
  eexists. split; [reflexivity|]. split.
  - rewrite map_map. clear Hlist.
    induction names as [|f names IH]; [done|].
    rewrite filter_cons.
    assert (∀ f', f' ∈ names → Text.lacks "/" f' = true) as Hrest
      by (intros f' Hf'; apply Hnames; by right).
    case_decide; cbn [map]; rewrite IH by done; [|done].
    rewrite basename_join; [done|]. apply Hnames. by left.
  - intros p Hp. apply list_elem_of_fmap in Hp as (f & -> & Hf).
    apply list_elem_of_filter in Hf as [Hmp4 Hf].
    destruct (join_shape directory f (Hnames f Hf)) as (pre & -> & _).
    rewrite lower_append. by apply endswith_append.
Qed.

Lemma discovered_files_are_the_mp4_entries_witness :
  ∃ paths,
    Front.get_files_from_dir Examples2.listing "/v" = Returns paths
    ∧ map OsPath.basename paths
      = filter (λ f, Text.endswith ".mp4" (Text.lower f) = true)
          ["a.mp4"; "a.txt"; "B.MP4"; "notes.md"]
    ∧ ∀ p, p ∈ paths → Text.endswith ".mp4" (Text.lower p) = true.
Proof.
  apply (discovered_files_are_the_mp4_entries Examples2.listing "/v"
           ["a.mp4"; "a.txt"; "B.MP4"; "notes.md"]).
  - reflexivity.
  - intros f Hf. apply list_elem_of_In in Hf.
    destruct Hf as [<-|[<-|[<-|[<-|[]]]]]; reflexivity.
Defined.

Example discovery_in_v :
  Front.get_files_from_dir Examples2.listing "/v" = Returns ["/v/a.mp4"; "/v/B.MP4"].
Proof. vm_compute. reflexivity. Qed.

(** ** More on PKCE *)

Lemma state_alphabet_alphanumeric draw :
  Charset.alphanumeric (Pkce.choice (Pkce.ascii_letters +:+ Pkce.digits) draw) = true.
Proof.
  unfold Pkce.choice.
  set (allowed := Pkce.ascii_letters +:+ Pkce.digits).
  assert (forallb (λ i, Charset.alphanumeric (default "000"%char (String.get i allowed)))
            (seq 0 (String.length allowed)) = true) as Hall
    by (vm_compute; reflexivity).
  rewrite forallb_forall in Hall. apply Hall, in_seq.
  split; [lia|]. cbn [Nat.add]. apply Nat.mod_upper_bound.
  vm_compute. discriminate.
Qed.

(** [X16] The state generated with length [L] has exactly [L] characters,
    all of them letters or digits (none of the four punctuation characters
    of the verifier alphabet), whatever the draws of the generator, and the
    generator has moved on by [L] draws. *)
Theorem state_is_alphanumeric (draws : nat → nat) (pos : nat) (L : Z) :
  0 ≤ L →
  Str.len (Pkce.generate_state draws pos L).1 = L
  ∧ (∀ c, c ∈ list_ascii_of_string (Pkce.generate_state draws pos L).1 →
       Charset.alphanumeric c = true)
  ∧ Z.of_nat (Pkce.generate_state draws pos L).2 = Z.of_nat pos + L.
Proof.
  intros HL. unfold Pkce.generate_state. cbn [fst snd]. split; [|split].
  - unfold Str.len. rewrite join_choices_length. lia.
  - apply join_choices_chars. apply state_alphabet_alphanumeric.
  - lia.
Qed.

Lemma state_is_alphanumeric_witness :
  Str.len (Pkce.generate_state Examples.draws_by_7 67 16).1 = 16.
Proof.
  refine (proj1 (state_is_alphanumeric Examples.draws_by_7 67 16 _)).
  vm_compute. discriminate.
Defined.

Lemma round_length st kw : length (Sha256.round st kw) = length st.
Proof.
  unfold Sha256.round.
  destruct st as [|a [|b [|c [|d [|e [|f [|g [|h [|i st]]]]]]]]]; reflexivity.
Qed.

Lemma rounds_length l : ∀ st, length (foldl Sha256.round st l) = length st.
Proof.
  induction l as [|kw l IH]; intros st; [done|]. cbn. by rewrite IH, round_length.
Qed.

Lemma compress_length h block : length (Sha256.compress h block) = length h.
Proof.
  unfold Sha256.compress. rewrite length_zip_with, rounds_length. lia.
Qed.

Lemma digest_length msg : length (Sha256.digest msg) = 8%nat.
Proof.
  unfold Sha256.digest. generalize (Sha256.blocks (length (Sha256.pad msg) / 64)
                                      (Sha256.pad msg)).
  assert (length Sha256.H0 = 8%nat) as Hinit by (vm_compute; reflexivity).
  revert Hinit. generalize Sha256.H0.
  intros h Hh l. revert h Hh.
  induction l as [|block l IH]; intros h Hh; [done|].
  cbn. apply IH. by rewrite compress_length.
Qed.

Lemma hex_digit_lower_hex x :
  0 ≤ x < 16 → Charset.lower_hex (Sha256.hex_digit x) = true.
Proof.
  intros Hx. unfold Sha256.hex_digit.
  assert (forallb (λ i, Charset.lower_hex
                          (default "0"%char (String.get i "0123456789abcdef")))
            (seq 0 16) = true) as Hall by (vm_compute; reflexivity).
  rewrite forallb_forall in Hall. apply Hall, in_seq. lia.
Qed.

Lemma hex_length n x : String.length (Sha256.hex n x) = n.
Proof. induction n as [|n IH]; [done|]. cbn. by rewrite IH. Qed.

Lemma hex_chars n x c :
  c ∈ list_ascii_of_string (Sha256.hex n x) → Charset.lower_hex c = true.
Proof.
  induction n as [|n IH]; cbn; intros Hc; [by apply elem_of_nil in Hc|].
  apply elem_of_cons in Hc as [-> | Hc]; [|by apply IH].
  apply hex_digit_lower_hex, Z.mod_pos_bound. lia.
Qed.

Lemma list_ascii_of_append a b :
  list_ascii_of_string (a +:+ b) = list_ascii_of_string a ++ list_ascii_of_string b.
Proof.
  induction a as [|x a IH]; [done|]. rewrite append_cons. cbn. by rewrite IH.
Qed.

(** [X17] The code challenge of every verifier is 64 characters long and
    consists of the digits and the letters a to f only: it is the hexadecimal
    digest of the hash, not a base64url string. *)
Theorem code_challenge_is_64_hex_digits (code_verifier : string) :
  String.length (Pkce.generate_code_challenge code_verifier) = 64%nat
  ∧ ∀ c, c ∈ list_ascii_of_string (Pkce.generate_code_challenge code_verifier) →
         Charset.lower_hex c = true.
Proof.
  unfold Pkce.generate_code_challenge, Sha256.hexdigest.
  pose proof (digest_length (Sha256.encode code_verifier)) as Hlen.
  revert Hlen. generalize (Sha256.digest (Sha256.encode code_verifier)).
  intros l Hl.
  assert (String.length (foldr (λ w acc, Sha256.hex 8 w +:+ acc) EmptyString l)
          = (8 * length l)%nat
          ∧ ∀ c, c ∈ list_ascii_of_string
                       (foldr (λ w acc, Sha256.hex 8 w +:+ acc) EmptyString l) →
                 Charset.lower_hex c = true) as [Hlength Hchars].
  { clear Hl. induction l as [|w l [IHlen IHchars]]; cbn [foldr].
    - split; [done|]. intros c Hc. by apply elem_of_nil in Hc.
    - split.
      + rewrite length_append, hex_length, IHlen. cbn [length]. lia.
      + intros c. rewrite list_ascii_of_append, elem_of_app.
        intros [Hc|Hc]; [by eapply hex_chars|by apply IHchars]. }
  split; [by rewrite Hlength, Hl|exact Hchars].
Qed.

(** ** Stripping *)

Lemma starts_with_app w l :
  Str.starts_with w l = true ↔ ∃ k, l = w ++ k.
Proof.
  revert l. induction w as [|x w IH]; intros l; cbn.
  - split; [by exists l|done].
  - destruct l as [|y l]; [split; [done|by intros (k & ?)]|].
    rewrite andb_true_iff, Ascii.eqb_eq, IH. split.
    + intros (-> & k & ->). by exists k.
    + intros (k & [= -> ->]). eauto.
Qed.

Lemma after_any_some ws l rest :
  Str.after_any ws l = Some rest → ∃ w, w ∈ ws ∧ l = w ++ rest.
Proof.
  induction ws as [|w ws IH]; cbn; [discriminate|].
  destruct (Str.starts_with w l) eqn:Hw.
  - apply starts_with_app in Hw as (k & ->). intros [= <-].
    exists w. split; [by left|]. by rewrite drop_app_length.
  - intros (w' & Hw' & ->)%IH. exists w'. split; [by right|done].
Qed.

Lemma after_any_none ws l w :
  Str.after_any ws l = None → w ∈ ws → Str.starts_with w l = false.
Proof.
  induction ws as [|w' ws IH]; cbn; [by intros _ ?%elem_of_nil|].
  destruct (Str.starts_with w' l) eqn:Hw'; [discriminate|].
  intros Hnone [-> | Hin]%elem_of_cons; [done|by apply IH].
Qed.

(** A text that begins with none of the sequences has no beginning that
    does. *)
Lemma after_any_none_prefix ws l t :
  Str.after_any ws (l ++ t) = None → Str.after_any ws l = None.
Proof.
  intros Hnone. destruct (Str.after_any ws l) as [rest|] eqn:Hl; [|done].
  apply after_any_some in Hl as (w & Hw & ->).
  pose proof (after_any_none _ _ _ Hnone Hw) as Hno.
  assert (Str.starts_with w ((w ++ rest) ++ t) = true) as Hyes
    by (apply starts_with_app; exists (rest ++ t); by rewrite app_assoc).
  by rewrite Hyes in Hno.
Qed.

Lemma lstrip_by_fixed ws n l :
  Str.after_any ws l = None → Str.lstrip_by ws n l = l.
Proof. intros Hnone. destruct n; cbn; [done|]. by rewrite Hnone. Qed.

Lemma lstrip_by_suffix ws n : ∀ l, ∃ p, l = p ++ Str.lstrip_by ws n l.
Proof.
  induction n as [|n IH]; intros l; cbn; [by exists []|].
  destruct (Str.after_any ws l) as [rest|] eqn:Hl; [|by exists []].
  apply after_any_some in Hl as (w & _ & ->).
  destruct (IH rest) as (p & Hp). exists (w ++ p). by rewrite <- app_assoc, <- Hp.
Qed.

Lemma lstrip_by_done ws n :
  Forall (λ w, w ≠ []) ws →
  ∀ l, (length l ≤ n)%nat → Str.after_any ws (Str.lstrip_by ws n l) = None.
Proof.
  intros Hws. induction n as [|n IH]; intros l Hlen; cbn.
  - destruct l; [|cbn in Hlen; lia].
    destruct (Str.after_any ws []) as [rest|] eqn:Hl; [|done].
    apply after_any_some in Hl as (w & Hw & Heq).
    symmetry in Heq. apply app_eq_nil in Heq as [-> _].
    rewrite Forall_forall in Hws. by destruct (Hws _ Hw).
  - destruct (Str.after_any ws l) as [rest|] eqn:Hl; [|done].
    apply IH. apply after_any_some in Hl as (w & Hw & ->).
    rewrite Forall_forall in Hws. specialize (Hws _ Hw).
    rewrite length_app in Hlen. destruct w; [done|]. cbn in Hlen. lia.
Qed.

Lemma whitespace_nonempty : Forall (λ w, w ≠ []) Str.whitespace_encodings.
Proof.
  apply Forall_forall. intros w Hw. unfold Str.whitespace_encodings in Hw.
  apply list_elem_of_fmap in Hw as (cp & -> & _). unfold Utf8.encode_char.
  repeat case_match; discriminate.
Qed.

Lemma reversed_whitespace_nonempty :
  Forall (λ w, w ≠ []) (reverse <$> Str.whitespace_encodings).
Proof.
  apply Forall_fmap. eapply Forall_impl; [apply whitespace_nonempty|].
  intros w Hw Hrev. cbn in Hrev. apply Hw.
  by rewrite <- (reverse_involutive w), Hrev.
Qed.

Lemma lstrip_bytes_done l :
  Str.after_any Str.whitespace_encodings (Str.lstrip_bytes l) = None.
Proof. by apply lstrip_by_done; [apply whitespace_nonempty|]. Qed.

Lemma rstrip_bytes_prefix l : ∃ t, l = Str.rstrip_bytes l ++ t.
Proof.
  unfold Str.rstrip_bytes.
  destruct (lstrip_by_suffix (reverse <$> Str.whitespace_encodings) (length l)
              (reverse l)) as (p & Hp).
  exists (reverse p). rewrite <- reverse_app, <- Hp. by rewrite reverse_involutive.
Qed.

Lemma rstrip_bytes_idempotent l :
  Str.rstrip_bytes (Str.rstrip_bytes l) = Str.rstrip_bytes l.
Proof.
  unfold Str.rstrip_bytes.
  rewrite reverse_involutive. f_equal. apply lstrip_by_fixed.
  apply lstrip_by_done; [apply reversed_whitespace_nonempty|].
  by rewrite length_reverse.
Qed.

(** Stripping twice is stripping once. *)
Lemma strip_idempotent s : Str.strip (Str.strip s) = Str.strip s.
Proof.
  unfold Str.strip. rewrite list_ascii_of_string_of_list_ascii. f_equal.
  set (x := Str.lstrip_bytes (list_ascii_of_string s)).
  assert (Str.lstrip_bytes (Str.rstrip_bytes x) = Str.rstrip_bytes x) as ->.
  { apply lstrip_by_fixed. destruct (rstrip_bytes_prefix x) as (t & Ht).
    apply (after_any_none_prefix _ _ t). rewrite <- Ht. apply lstrip_bytes_done. }
  apply rstrip_bytes_idempotent.
Qed.

(** A text without a carriage return is read back as it is. *)
Lemma universal_newlines_without_cr s :
  Text.lacks Str.CR s = true → Str.universal_newlines s = s.
Proof.
  induction s as [|c s IH]; [done|]. cbn [Text.lacks Str.universal_newlines].
  intros [Hc Hs]%andb_prop. apply negb_true_iff in Hc. rewrite Hc.
  by rewrite IH.
Qed.

(** ** The pipeline of transcribe.py *)

(** The ways [process_file] can return, read off its branches. *)
Lemma process_file_returns svc writable w video_path w' r :
  Pipeline.process_file svc writable w video_path = Returns (w', r) →
  (w' = w
   ∧ (r = (video_path, true, PyStr "Already processed")
        ∧ is_Some (Pipeline.files w !! caption_path video_path)
      ∨ Pipeline.files w !! caption_path video_path = None
        ∧ (r = (video_path, false, PyStr "Transcription failed")
           ∨ r = (video_path, false, PyStr "Description generation failed")
           ∨ r = (video_path, false, PyStr "Saving description failed"))))
  ∨ (Pipeline.files w !! caption_path video_path = None
     ∧ Pipeline.files w' = <[caption_path video_path := EmptyString]> (Pipeline.files w)
     ∧ Pipeline.drive_files w' = Pipeline.drive_files w
     ∧ r = (video_path, false, PyStr "Saving description failed"))
  ∨ (Pipeline.files w !! caption_path video_path = None
     ∧ ∃ d, Str.strip d = d
            ∧ Utf8.valid d = true
            ∧ Pipeline.files w' = <[caption_path video_path := d]> (Pipeline.files w)
            ∧ (r = (video_path, false, PyStr "Upload to Drive failed")
                 ∧ Pipeline.drive_files w' = Pipeline.drive_files w
               ∨ (∃ file_id, r = (video_path, true, PyStr file_id))
                 ∧ Pipeline.drive_files w'
                   = Pipeline.drive_files w
                     ++ [(OsPath.basename (caption_path video_path), d)])).
Proof.
  unfold Pipeline.process_file, Transcribe.save_description, Os.exists_, caption_path.
  rewrite transcript_extensions_agree.
  destruct (OsPath.splitext video_path) as [base ext]. cbn [fst].
  set (txt := base +:+ Upload.TRANSCRIPT_EXTENSION).
  destruct w as [fs stored]. cbn [Pipeline.files Pipeline.drive_files].
  case_bool_decide as Hexists.
  { intros [= <- <-]. left. split; [done|]. left. by split. }
  assert (fs !! txt = None) as Hnone
    by (by apply eq_None_not_Some).
  destruct (is_none _).
  { intros [= <- <-]. left. split; [done|]. right. auto. }
  destruct (Pipeline.generate_description svc _) as [[d|]|e|] eqn:Hgen;
    [| |discriminate..].
  2:{ intros [= <- <-]. left. split; [done|]. right. auto. }
  assert (Str.strip d = d) as Hstripped.
  { revert Hgen. unfold Pipeline.generate_description.
    destruct (Pipeline.transcribe_video _ _ _); try discriminate.
    intros [= Hgen]. revert Hgen.
    destruct (Pipeline.chat svc _) as [resp|]; [|discriminate].
    destruct (negb _); [discriminate|].
    destruct (body resp) as [j|]; [|discriminate]. cbn.
    destruct (Pipeline.subscript j "choices") as [choices|]; [|discriminate]. cbn.
    destruct (Pipeline.subscript_0 choices) as [choice|]; [|discriminate]. cbn.
    destruct (Pipeline.subscript choice "message") as [message|]; [|discriminate].
    cbn.
    destruct (Pipeline.subscript message "content") as [content|]; [|discriminate].
    cbn. destruct content; try discriminate. cbn. intros [= <-].
    apply strip_idempotent. }
  destruct (writable txt).
  2:{ intros [= <- <-]. left. split; [done|]. right. auto. }
  destruct (Utf8.valid d) eqn:Hvalid.
  2:{ intros [= <- <-]. right. left. by cbn. }
  unfold Pipeline.upload_to_drive. cbn [Pipeline.files Pipeline.drive_files].
  rewrite lookup_insert_eq.
  destruct (Pipeline.drive svc _ d) as [file_id|]; cbn [is_none].
  - intros [= <- <-]. right. right. split; [done|]. exists d. cbn.
    split; [done|]. split; [done|]. split; [done|]. right. eauto.
  - intros [= <- <-]. right. right. split; [done|]. exists d. cbn.
    split; [done|]. split; [done|]. split; [done|]. by left.
Qed.

(** [X18] Whatever [process_file] returns, it has written at most one
    file, the caption file of its video (every other path holds what it
    held before, the video included unless it is its own caption path), it
    has removed nothing from the Drive and added at most one file to it, and
    the triple it returns names the video it was given. *)
Theorem process_file_touches_only_the_caption svc writable w video_path w' r :
  Pipeline.process_file svc writable w video_path = Returns (w', r) →
  r.1.1 = video_path
  ∧ (∀ q, q ≠ caption_path video_path →
       Pipeline.files w' !! q = Pipeline.files w !! q)
  ∧ ∃ added, Pipeline.drive_files w' = Pipeline.drive_files w ++ added
             ∧ (length added ≤ 1)%nat.
Proof.
  intros Hrun.
  destruct (process_file_returns _ _ _ _ _ _ Hrun)
    as [(-> & Hr)|[(_ & Hfiles & Hdrive & ->)|(_ & d & _ & _ & Hfiles & Hr)]].
  - split; [|split; [done|exists []; split; [by rewrite app_nil_r|cbn; lia]]].
    destruct Hr as [(-> & _)|(_ & [-> | [-> | ->]])]; reflexivity.
  - split; [done|]. split.
    + intros q Hq. rewrite Hfiles. by apply lookup_insert_ne.
    + exists []. split; [by rewrite app_nil_r|cbn; lia].
  - split; [|split].
    + destruct Hr as [(-> & _)|((file_id & ->) & _)]; reflexivity.
    + intros q Hq. rewrite Hfiles. by apply lookup_insert_ne.
    + destruct Hr as [(_ & ->)|(_ & ->)].
      * exists []. split; [by rewrite app_nil_r|cbn; lia].
      * eexists. split; [reflexivity|]. cbn. lia.
Qed.

Lemma process_file_touches_only_the_caption_witness :
  "/v/b.mp4" = "/v/b.mp4"
  ∧ (∀ q, q ≠ caption_path "/v/b.mp4" →
       Examples2.fs_b_saved !! q
       = Examples.fs_one_caption !! q)
  ∧ ∃ added, [("b.txt", "A greeting #hi")] = [] ++ added ∧ (length added ≤ 1)%nat.
Proof.
  exact (process_file_touches_only_the_caption Examples2.svc_ok (λ _, true)
           Examples2.world_b "/v/b.mp4"
           Examples2.world_b_stored
           ("/v/b.mp4", true, PyStr "id-1")
           ltac:(vm_compute; reflexivity)).
Defined.



(** [X20] A failed Drive upload is never retried. When [process_file]
    reports "Upload to Drive failed", the caption file has been written and
    nothing is on the Drive; every later run for that video, with whatever
    services, is skipped and reported as a success "Already processed"
    without changing anything, and the filter of [main] drops the video
    from the files to process. *)
Theorem drive_failure_is_never_retried svc writable w video_path w' p :
  Pipeline.process_file svc writable w video_path
  = Returns (w', (p, false, PyStr "Upload to Drive failed")) →
  Pipeline.drive_files w' = Pipeline.drive_files w
  ∧ is_Some (Pipeline.files w' !! caption_path video_path)
  ∧ (∀ svc' writable',
       Pipeline.process_file svc' writable' w' video_path
       = Returns (w', (video_path, true, PyStr "Already processed")))
  ∧ ∀ files, video_path ∉ Pipeline.files_to_process (Pipeline.files w') files.
Proof.
  intros Hrun.
  destruct (process_file_returns _ _ _ _ _ _ Hrun)
    as [(-> & Hr)|[(_ & _ & _ & Hr)|(_ & d & _ & _ & Hfiles & Hr)]].
  { destruct Hr as [(Hr & _)|(_ & [Hr | [Hr | Hr]])]; discriminate. }
  { discriminate. }
  destruct Hr as [(_ & Hdrive)|((file_id & Hr) & _)]; [|discriminate].
  assert (Pipeline.files w' !! caption_path video_path = Some d) as Hcaption
    by (by rewrite Hfiles, lookup_insert_eq).
  split; [done|]. split; [by rewrite Hcaption|]. split.
  - intros svc' writable'. unfold Pipeline.process_file, Os.exists_.
    pose proof (process_file_caption_path video_path) as Hpath.
    destruct (OsPath.splitext video_path) as [base ext]. cbn [fst] in Hpath.
    rewrite Hpath, bool_decide_true; [done|]. by rewrite Hcaption.
  - intros files. unfold Pipeline.files_to_process.
    intros [Hnot _]%list_elem_of_filter. unfold Os.exists_ in Hnot.
    rewrite bool_decide_true in Hnot; [done|]. by rewrite Hcaption.
Qed.

Lemma drive_failure_is_never_retried_witness :
  Pipeline.process_file Examples2.svc_ok (λ _, true)
    Examples2.world_b_saved
    "/v/b.mp4"
  = Returns
      (Examples2.world_b_saved,
       ("/v/b.mp4", true, PyStr "Already processed")).
Proof.
  destruct (drive_failure_is_never_retried Examples2.svc_drive_down (λ _, true)
              Examples2.world_b "/v/b.mp4"
              Examples2.world_b_saved
              "/v/b.mp4") as (_ & _ & Hlater & _).
  - vm_compute. reflexivity.
  - apply (Hlater Examples2.svc_ok (λ _, true)).
Defined.

(** [X21] The prompt is built outside the [try] of [generate_description]:
    when the transcription reply is a JSON object whose "text" is neither a
    string nor null, [process_file] raises TypeError instead of returning a
    failure triple, and nothing has been written. *)
Theorem non_string_transcript_raises svc writable w video_path video j text :
  Pipeline.files w !! caption_path video_path = None →
  Pipeline.files w !! video_path = Some video →
  Pipeline.whisper svc (OsPath.basename video_path) video
  = Answers (Response 200 (Some (PyDict j))) →
  dict_find "text" j = Some text →
  text ≠ PyNone →
  (∀ s, text ≠ PyStr s) →
  Pipeline.process_file svc writable w video_path = Raises TypeError.
Proof.
  intros Hfresh Hvid Hreply Htext Hnone Hstr.
  unfold Pipeline.process_file, Os.exists_.
  pose proof (process_file_caption_path video_path) as Hpath.
  destruct (OsPath.splitext video_path) as [base ext]. cbn [fst] in Hpath.
  rewrite Hpath, bool_decide_false by (rewrite Hfresh; by intros [? ?]).
  unfold Pipeline.transcribe_video. rewrite Hvid. cbn. rewrite Hreply. cbn.
  rewrite Htext. cbn.
  destruct text; try done. by destruct (Hstr s).
Qed.

Lemma non_string_transcript_raises_witness :
  Pipeline.process_file
    (Pipeline.Services (λ _ _, Examples.json_response 200 [("text", PyInt 7)])
       (λ _, Fails) (λ _ _, None))
    (λ _, true) Examples2.world_b "/v/b.mp4"
  = Raises TypeError.
Proof.
  apply (non_string_transcript_raises
           (Pipeline.Services (λ _ _, Examples.json_response 200 [("text", PyInt 7)])
              (λ _, Fails) (λ _ _, None))
           (λ _, true) Examples2.world_b "/v/b.mp4" "BBBBBB"
           [("text", PyInt 7)] (PyInt 7)).
  - vm_compute. reflexivity.
  - vm_compute. reflexivity.
  - reflexivity.
  - reflexivity.
  - discriminate.
  - intros s. discriminate.
Defined.

(** [X22] From transcribe.py to upload.py: after a run of [process_file]
    that reports success for a video that had no caption file, a Publish
    Session for that video reads the text that was saved and stored on the
    Drive and sends it as the title of its initialization call with the line
    endings translated (CR LF and CR become LF) and stripped again. When the
    description holds no carriage return the title is exactly the text
    saved and stored: the description was stripped when it was generated,
    so the strip of the session changes nothing. *)
Theorem generated_caption_reaches_the_session svc writable w video_path w' p id
    net fuel tok video :
  Pipeline.files w !! caption_path video_path = None →
  Pipeline.process_file svc writable w video_path = Returns (w', (p, true, id)) →
  Pipeline.files w' !! video_path = Some video →
  ∃ d rest,
    Pipeline.files w' !! caption_path video_path = Some d
    ∧ d ∈ (Pipeline.drive_files w').*2
    ∧ (Upload.direct_post_video (Pipeline.files w') net fuel video_path tok).1
      = InitPost tok (Str.len video) (Str.strip (Str.universal_newlines d)) :: rest
    ∧ (Text.lacks Str.CR d = true → Str.strip (Str.universal_newlines d) = d).
Proof.
  intros Hfresh Hrun Hvid.
  destruct (process_file_returns _ _ _ _ _ _ Hrun)
    as [(-> & Hr)|[(_ & _ & _ & Hr)|(_ & d & Hstrip & Hvalid & Hfiles & Hr)]].
  - destruct Hr as [(_ & Hsome)|(_ & [Hr | [Hr | Hr]])]; try discriminate.
    rewrite Hfresh in Hsome. by destruct Hsome.
  - discriminate.
  - destruct Hr as [(Hr & _)|(_ & Hdrive)]; [discriminate|].
    assert (Pipeline.files w' !! caption_path video_path = Some d) as Hcaption
      by (by rewrite Hfiles, lookup_insert_eq).
    assert (Os.read_text (Pipeline.files w') (caption_path video_path)
            = mret (Str.universal_newlines d)) as Hread
      by (unfold Os.read_text; by rewrite Hcaption, Hvalid).
    destruct (direct_post_video_starts_with_init (Pipeline.files w') net fuel
                video_path tok video _ Hvid Hread) as [rest Hrest].
    exists d, rest. split; [done|]. split; [|split; [done|]].
    + rewrite Hdrive, fmap_app, elem_of_app. right. cbn. by left.
    + intros Hcr. by rewrite universal_newlines_without_cr, Hstrip.
Qed.

Lemma generated_caption_reaches_the_session_witness :
  ∃ d rest,
    Examples2.fs_b_saved !! caption_path "/v/b.mp4" = Some d
    ∧ d ∈ [("b.txt", "A greeting #hi")].*2
    ∧ (Upload.direct_post_video Examples2.fs_b_saved
         Examples.net_published 10 "/v/b.mp4" "tok").1
      = InitPost "tok" (Str.len "BBBBBB") (Str.strip (Str.universal_newlines d))
        :: rest
    ∧ (Text.lacks Str.CR d = true → Str.strip (Str.universal_newlines d) = d).
Proof.
  apply (generated_caption_reaches_the_session Examples2.svc_ok (λ _, true)
           Examples2.world_b "/v/b.mp4" Examples2.world_b_stored
           "/v/b.mp4" (PyStr "id-1") Examples.net_published 10 "tok" "BBBBBB").
  - vm_compute. reflexivity.
  - vm_compute. reflexivity.
  - vm_compute. reflexivity.
Defined.
